(** * Verification of [bluetooth_2_usb/evdev_adapter.py]

    The adapter translates Linux input events (evdev) into USB HID usage
    ids.  This development embeds the module in Rocq and proves the
    properties of its specification.

    The module reads four namespaces that are defined elsewhere:
    [bluetooth_2_usb.ecodes.ecodes] (the scan codes) and the three usage
    classes of [adafruit_hid] ([Keycode], [ConsumerControlCode],
    [MouseButton]).  Their contents are not part of the adapter, so they
    are a parameter of the development ([env] below); the tables of the
    adapter are kept as the source writes them, by name, and resolved in
    that parameter. *)

From Stdlib Require Import ZArith String List.
From stdpp Require Import gmap strings list.

Local Open Scope string_scope.
Local Open Scope list_scope.
Local Open Scope Z_scope.

(** ** Python values and namespaces *)

(** The values an attribute of a namespace can have, as far as the adapter
    can tell them apart: it only ever compares an attribute with an [int]
    or with [None].  [PyObj] stands for every other object (methods,
    strings, dictionaries, ...), which is equal to neither. *)
Inductive pyval : Type :=
  | PyInt (z : Z)
  | PyNone
  | PyObj.

(** Python's [==] between an attribute value and an [int] or [None]. *)
Definition py_eq (a b : pyval) : bool :=
  match a, b with
  | PyInt x, PyInt y => bool_decide (x = y)
  | PyNone, PyNone => true
  | _, _ => false
  end.

(** [int | None] as a Python value. *)
Definition of_option (o : option Z) : pyval :=
  match o with
  | Some z => PyInt z
  | None => PyNone
  end.

(** A namespace (a module or a class): its attributes in the order [dir]
    lists them, each with its value. *)
Definition namespace : Type := list (string * pyval).

Definition dir (ns : namespace) : list string := ns.*1.

(** Attribute access [ns.a]; [None] is Python's [AttributeError]. *)
Fixpoint lookup_attr (ns : namespace) (a : string) : option pyval :=
  match ns with
  | [] => None
  | (n, v) :: ns' => if decide (n = a) then Some v else lookup_attr ns' a
  end.

(** [getattr(ns, a, default)]. *)
Definition getattr (ns : namespace) (a : string) (default : pyval) : pyval :=
  match lookup_attr ns a with
  | Some v => v
  | None => default
  end.

(** An attribute used as an [int] constant: the tables below are typed
    [dict[int, int]] and sets of [int]. *)
Definition int_attr (ns : namespace) (a : string) : option Z :=
  match lookup_attr ns a with
  | Some (PyInt z) => Some z
  | _ => None
  end.

(** [str.startswith] with a tuple of prefixes. *)
Definition startswith (s : string) (prefixes : list string) : bool :=
  existsb (λ p, String.prefix p s) prefixes.

(** The four namespaces the adapter refers to. *)
Inductive class_type : Type :=
  | ecodes
  | Keycode
  | ConsumerControlCode
  | MouseButton.

Global Instance class_type_eq_dec : EqDecision class_type.
Proof. solve_decision. Defined.

Global Instance pyval_eq_dec : EqDecision pyval.
Proof. solve_decision. Defined.

(** ** The tables of the module, as written *)

(** The dictionary display of [_EVDEV_TO_HID], entry by entry in source
    order: [ecodes.K: C.A] is [(K, (C, A))]. *)
Definition _EVDEV_TO_HID_literal : list (string * (class_type * string)) :=
  [
    ("KEY_A", (Keycode, "A")); ("KEY_B", (Keycode, "B"));
    ("KEY_C", (Keycode, "C")); ("KEY_D", (Keycode, "D"));
    ("KEY_E", (Keycode, "E")); ("KEY_F", (Keycode, "F"));
    ("KEY_G", (Keycode, "G")); ("KEY_H", (Keycode, "H"));
    ("KEY_I", (Keycode, "I")); ("KEY_J", (Keycode, "J"));
    ("KEY_K", (Keycode, "K")); ("KEY_L", (Keycode, "L"));
    ("KEY_M", (Keycode, "M")); ("KEY_N", (Keycode, "N"));
    ("KEY_O", (Keycode, "O")); ("KEY_P", (Keycode, "P"));
    ("KEY_Q", (Keycode, "Q")); ("KEY_R", (Keycode, "R"));
    ("KEY_S", (Keycode, "S")); ("KEY_T", (Keycode, "T"));
    ("KEY_U", (Keycode, "U")); ("KEY_V", (Keycode, "V"));
    ("KEY_W", (Keycode, "W")); ("KEY_X", (Keycode, "X"));
    ("KEY_Y", (Keycode, "Y")); ("KEY_Z", (Keycode, "Z"));
    ("KEY_1", (Keycode, "ONE")); ("KEY_2", (Keycode, "TWO"));
    ("KEY_3", (Keycode, "THREE")); ("KEY_4", (Keycode, "FOUR"));
    ("KEY_5", (Keycode, "FIVE")); ("KEY_6", (Keycode, "SIX"));
    ("KEY_7", (Keycode, "SEVEN")); ("KEY_8", (Keycode, "EIGHT"));
    ("KEY_9", (Keycode, "NINE")); ("KEY_0", (Keycode, "ZERO"));
    ("KEY_ENTER", (Keycode, "ENTER")); ("KEY_ESC", (Keycode, "ESCAPE"));
    ("KEY_BACKSPACE", (Keycode, "BACKSPACE")); ("KEY_TAB", (Keycode, "TAB"));
    ("KEY_SPACE", (Keycode, "SPACEBAR")); ("KEY_MINUS", (Keycode, "MINUS"));
    ("KEY_EQUAL", (Keycode, "EQUALS"));
    ("KEY_LEFTBRACE", (Keycode, "LEFT_BRACKET"));
    ("KEY_RIGHTBRACE", (Keycode, "RIGHT_BRACKET"));
    ("KEY_BACKSLASH", (Keycode, "POUND"));
    ("KEY_SEMICOLON", (Keycode, "SEMICOLON"));
    ("KEY_APOSTROPHE", (Keycode, "QUOTE"));
    ("KEY_GRAVE", (Keycode, "GRAVE_ACCENT"));
    ("KEY_COMMA", (Keycode, "COMMA")); ("KEY_DOT", (Keycode, "PERIOD"));
    ("KEY_SLASH", (Keycode, "FORWARD_SLASH"));
    ("KEY_CAPSLOCK", (Keycode, "CAPS_LOCK")); ("KEY_F1", (Keycode, "F1"));
    ("KEY_F2", (Keycode, "F2")); ("KEY_F3", (Keycode, "F3"));
    ("KEY_F4", (Keycode, "F4")); ("KEY_F5", (Keycode, "F5"));
    ("KEY_F6", (Keycode, "F6")); ("KEY_F7", (Keycode, "F7"));
    ("KEY_F8", (Keycode, "F8")); ("KEY_F9", (Keycode, "F9"));
    ("KEY_F10", (Keycode, "F10")); ("KEY_F11", (Keycode, "F11"));
    ("KEY_F12", (Keycode, "F12")); ("KEY_SYSRQ", (Keycode, "PRINT_SCREEN"));
    ("KEY_SCROLLLOCK", (Keycode, "SCROLL_LOCK"));
    ("KEY_PAUSE", (Keycode, "PAUSE")); ("KEY_INSERT", (Keycode, "INSERT"));
    ("KEY_HOME", (Keycode, "HOME")); ("KEY_PAGEUP", (Keycode, "PAGE_UP"));
    ("KEY_DELETE", (Keycode, "DELETE")); ("KEY_END", (Keycode, "END"));
    ("KEY_PAGEDOWN", (Keycode, "PAGE_DOWN"));
    ("KEY_RIGHT", (Keycode, "RIGHT_ARROW"));
    ("KEY_LEFT", (Keycode, "LEFT_ARROW"));
    ("KEY_DOWN", (Keycode, "DOWN_ARROW")); ("KEY_UP", (Keycode, "UP_ARROW"));
    ("KEY_NUMLOCK", (Keycode, "KEYPAD_NUMLOCK"));
    ("KEY_KPSLASH", (Keycode, "KEYPAD_FORWARD_SLASH"));
    ("KEY_KPASTERISK", (Keycode, "KEYPAD_ASTERISK"));
    ("KEY_KPMINUS", (Keycode, "KEYPAD_MINUS"));
    ("KEY_KPPLUS", (Keycode, "KEYPAD_PLUS"));
    ("KEY_KPENTER", (Keycode, "KEYPAD_ENTER"));
    ("KEY_KP1", (Keycode, "KEYPAD_ONE"));
    ("KEY_KP2", (Keycode, "KEYPAD_TWO"));
    ("KEY_KP3", (Keycode, "KEYPAD_THREE"));
    ("KEY_KP4", (Keycode, "KEYPAD_FOUR"));
    ("KEY_KP5", (Keycode, "KEYPAD_FIVE"));
    ("KEY_KP6", (Keycode, "KEYPAD_SIX"));
    ("KEY_KP7", (Keycode, "KEYPAD_SEVEN"));
    ("KEY_KP8", (Keycode, "KEYPAD_EIGHT"));
    ("KEY_KP9", (Keycode, "KEYPAD_NINE"));
    ("KEY_KP0", (Keycode, "KEYPAD_ZERO"));
    ("KEY_KPDOT", (Keycode, "KEYPAD_PERIOD"));
    ("KEY_102ND", (Keycode, "KEYPAD_BACKSLASH"));
    ("KEY_COMPOSE", (Keycode, "APPLICATION"));
    ("KEY_POWER", (Keycode, "POWER"));
    ("KEY_KPEQUAL", (Keycode, "KEYPAD_EQUALS"));
    ("KEY_KPCOMMA", (Keycode, "KEYPAD_COMMA"));
    ("KEY_F13", (Keycode, "F13")); ("KEY_F14", (Keycode, "F14"));
    ("KEY_F15", (Keycode, "F15")); ("KEY_F16", (Keycode, "F16"));
    ("KEY_F17", (Keycode, "F17")); ("KEY_F18", (Keycode, "F18"));
    ("KEY_F19", (Keycode, "F19")); ("KEY_F20", (Keycode, "F20"));
    ("KEY_F21", (Keycode, "F21")); ("KEY_F22", (Keycode, "F22"));
    ("KEY_F23", (Keycode, "F23")); ("KEY_F24", (Keycode, "F24"));
    ("KEY_LEFTCTRL", (Keycode, "LEFT_CONTROL"));
    ("KEY_LEFTSHIFT", (Keycode, "LEFT_SHIFT"));
    ("KEY_LEFTALT", (Keycode, "LEFT_ALT"));
    ("KEY_LEFTMETA", (Keycode, "LEFT_GUI"));
    ("KEY_RIGHTCTRL", (Keycode, "RIGHT_CONTROL"));
    ("KEY_RIGHTSHIFT", (Keycode, "RIGHT_SHIFT"));
    ("KEY_RIGHTALT", (Keycode, "RIGHT_ALT"));
    ("KEY_RIGHTMETA", (Keycode, "RIGHT_GUI"));
    ("BTN_LEFT", (MouseButton, "LEFT"));
    ("BTN_RIGHT", (MouseButton, "RIGHT"));
    ("BTN_MIDDLE", (MouseButton, "MIDDLE"));
    ("KEY_POWER", (ConsumerControlCode, "POWER"));
    ("KEY_RESTART", (ConsumerControlCode, "RESET"));
    ("KEY_SLEEP", (ConsumerControlCode, "SLEEP"));
    ("BTN_MISC", (ConsumerControlCode, "FUNCTION_BUTTONS"));
    ("KEY_MENU", (ConsumerControlCode, "MENU"));
    ("KEY_SELECT", (ConsumerControlCode, "MENU_PICK"));
    ("KEY_INFO", (ConsumerControlCode, "AL_OEM_FEATURES_TIPS_TUTORIAL_BROWSER"));
    ("KEY_SUBTITLE", (ConsumerControlCode, "CLOSED_CAPTION"));
    ("KEY_VCR", (ConsumerControlCode, "MEDIA_SELECT_VCR"));
    ("KEY_CAMERA", (ConsumerControlCode, "SNAPSHOT"));
    ("KEY_RED", (ConsumerControlCode, "RED_MENU_BUTTON"));
    ("KEY_GREEN", (ConsumerControlCode, "GREEN_MENU_BUTTON"));
    ("KEY_BLUE", (ConsumerControlCode, "BLUE_MENU_BUTTON"));
    ("KEY_YELLOW", (ConsumerControlCode, "YELLOW_MENU_BUTTON"));
    ("KEY_ASPECT_RATIO", (ConsumerControlCode, "ASPECT"));
    ("KEY_BRIGHTNESSUP", (ConsumerControlCode, "DISPLAY_BRIGHTNESS_INCREMENT"));
    ("KEY_BRIGHTNESSDOWN", (ConsumerControlCode, "DISPLAY_BRIGHTNESS_DECREMENT"));
    ("KEY_BRIGHTNESS_TOGGLE", (ConsumerControlCode, "DISPLAY_BACKLIGHT_TOGGLE"));
    ("KEY_BRIGHTNESS_MIN", (ConsumerControlCode, "DISPLAY_SET_BRIGHTNESS_TO_MINIMUM"));
    ("KEY_BRIGHTNESS_MAX", (ConsumerControlCode, "DISPLAY_SET_BRIGHTNESS_TO_MAXIMUM"));
    ("KEY_BRIGHTNESS_AUTO", (ConsumerControlCode, "DISPLAY_SET_AUTO_BRIGHTNESS"));
    ("KEY_CAMERA_ACCESS_ENABLE", (ConsumerControlCode, "CAMERA_ACCESS_ENABLED"));
    ("KEY_CAMERA_ACCESS_DISABLE", (ConsumerControlCode, "CAMERA_ACCESS_DISABLED"));
    ("KEY_CAMERA_ACCESS_TOGGLE", (ConsumerControlCode, "CAMERA_ACCESS_TOGGLE"));
    ("KEY_KBDILLUMUP", (ConsumerControlCode, "KEYBOARD_BRIGHTNESS_INCREMENT"));
    ("KEY_KBDILLUMDOWN", (ConsumerControlCode, "KEYBOARD_BRIGHTNESS_DECREMENT"));
    ("KEY_KBDILLUMTOGGLE", (ConsumerControlCode, "KEYBOARD_BACKLIGHT_OOC"));
    ("KEY_VIDEO_NEXT", (ConsumerControlCode, "MODE_STEP"));
    ("KEY_LAST", (ConsumerControlCode, "RECALL_LAST"));
    ("KEY_PC", (ConsumerControlCode, "MEDIA_SELECT_COMPUTER"));
    ("KEY_TV", (ConsumerControlCode, "MEDIA_SELECT_TV"));
    ("KEY_WWW", (ConsumerControlCode, "AL_INTERNET_BROWSER"));
    ("KEY_DVD", (ConsumerControlCode, "MEDIA_SELECT_DVD"));
    ("KEY_PHONE", (ConsumerControlCode, "MEDIA_SELECT_TELEPHONE"));
    ("KEY_PROGRAM", (ConsumerControlCode, "MEDIA_SELECT_PROGRAM_GUIDE"));
    ("KEY_VIDEOPHONE", (ConsumerControlCode, "MEDIA_SELECT_VIDEO_PHONE"));
    ("KEY_GAMES", (ConsumerControlCode, "MEDIA_SELECT_GAMES"));
    ("KEY_MEMO", (ConsumerControlCode, "MEDIA_SELECT_MESSAGES"));
    ("KEY_CD", (ConsumerControlCode, "MEDIA_SELECT_CD"));
    ("KEY_TUNER", (ConsumerControlCode, "MEDIA_SELECT_TUNER"));
    ("KEY_EXIT", (ConsumerControlCode, "AC_EXIT"));
    ("KEY_HELP", (ConsumerControlCode, "AL_INTEGRATED_HELP_CENTER"));
    ("KEY_TAPE", (ConsumerControlCode, "MEDIA_SELECT_TAPE"));
    ("KEY_TV2", (ConsumerControlCode, "MEDIA_SELECT_CABLE"));
    ("KEY_SAT", (ConsumerControlCode, "MEDIA_SELECT_SATELLITE"));
    ("KEY_PVR", (ConsumerControlCode, "MEDIA_SELECT_HOME"));
    ("KEY_CHANNELUP", (ConsumerControlCode, "CHANNEL_INCREMENT"));
    ("KEY_CHANNELDOWN", (ConsumerControlCode, "CHANNEL_DECREMENT"));
    ("KEY_VCR2", (ConsumerControlCode, "VCR_PLUS"));
    ("KEY_PLAY", (ConsumerControlCode, "PLAY"));
    ("KEY_PAUSE", (ConsumerControlCode, "PAUSE"));
    ("KEY_RECORD", (ConsumerControlCode, "RECORD"));
    ("KEY_FASTFORWARD", (ConsumerControlCode, "FAST_FORWARD"));
    ("KEY_REWIND", (ConsumerControlCode, "REWIND"));
    ("KEY_NEXTSONG", (ConsumerControlCode, "SCAN_NEXT_TRACK"));
    ("KEY_PREVIOUSSONG", (ConsumerControlCode, "SCAN_PREVIOUS_TRACK"));
    ("KEY_STOPCD", (ConsumerControlCode, "STOP"));
    ("KEY_EJECTCD", (ConsumerControlCode, "EJECT"));
    ("KEY_MEDIA_REPEAT", (ConsumerControlCode, "REPEAT"));
    ("KEY_SHUFFLE", (ConsumerControlCode, "RANDOM_PLAY"));
    ("KEY_SLOW", (ConsumerControlCode, "SLOW"));
    ("KEY_PLAYPAUSE", (ConsumerControlCode, "PLAY_PAUSE"));
    ("KEY_VOICECOMMAND", (ConsumerControlCode, "VOICE_COMMAND"));
    ("KEY_DICTATE", (ConsumerControlCode, "START_OR_STOP_VOICE_DICTATION_SESSION"));
    ("KEY_EMOJI_PICKER", (ConsumerControlCode, "INVOKE_OR_DISMISS_EMOJI_PICKER"));
    ("KEY_MUTE", (ConsumerControlCode, "MUTE"));
    ("KEY_BASSBOOST", (ConsumerControlCode, "BASS_BOOST"));
    ("KEY_VOLUMEUP", (ConsumerControlCode, "VOLUME_INCREMENT"));
    ("KEY_VOLUMEDOWN", (ConsumerControlCode, "VOLUME_DECREMENT"));
    ("KEY_BUTTONCONFIG", (ConsumerControlCode, "AL_LAUNCH_BUTTON_CONFIGURATION_TOOL"));
    ("KEY_BOOKMARKS", (ConsumerControlCode, "AC_BOOKMARKS"));
    ("KEY_CONFIG", (ConsumerControlCode, "AL_CONSUMER_CONTROL_CONFIGURATION_TOOL"));
    ("KEY_WORDPROCESSOR", (ConsumerControlCode, "AL_WORD_PROCESSOR"));
    ("KEY_EDITOR", (ConsumerControlCode, "AL_TEXT_EDITOR"));
    ("KEY_SPREADSHEET", (ConsumerControlCode, "AL_SPREADSHEET"));
    ("KEY_GRAPHICSEDITOR", (ConsumerControlCode, "AL_GRAPHICS_EDITOR"));
    ("KEY_PRESENTATION", (ConsumerControlCode, "AL_PRESENTATION_APP"));
    ("KEY_DATABASE", (ConsumerControlCode, "AL_DATABASE_APP"));
    ("KEY_MAIL", (ConsumerControlCode, "AL_EMAIL_READER"));
    ("KEY_NEWS", (ConsumerControlCode, "AL_NEWSREADER"));
    ("KEY_VOICEMAIL", (ConsumerControlCode, "AL_VOICEMAIL"));
    ("KEY_ADDRESSBOOK", (ConsumerControlCode, "AL_CONTACTS_ADDRESS_BOOK"));
    ("KEY_CALENDAR", (ConsumerControlCode, "AL_CALENDAR_SCHEDULE"));
    ("KEY_TASKMANAGER", (ConsumerControlCode, "AL_TASK_PROJECT_MANAGER"));
    ("KEY_JOURNAL", (ConsumerControlCode, "AL_LOG_JOURNAL_TIMECARD"));
    ("KEY_FINANCE", (ConsumerControlCode, "AL_CHECKBOOK_FINANCE"));
    ("KEY_CALC", (ConsumerControlCode, "AL_CALCULATOR"));
    ("KEY_PLAYER", (ConsumerControlCode, "AL_AV_CAPTURE_PLAYBACK"));
    ("KEY_FILE", (ConsumerControlCode, "AL_FILE_BROWSER"));
    ("KEY_CHAT", (ConsumerControlCode, "AL_NETWORK_CHAT"));
    ("KEY_LOGOFF", (ConsumerControlCode, "AL_LOGOFF"));
    ("KEY_COFFEE", (ConsumerControlCode, "AL_TERMINAL_LOCK_SCREENSAVER"));
    ("KEY_CONTROLPANEL", (ConsumerControlCode, "AL_CONTROL_PANEL"));
    ("KEY_APPSELECT", (ConsumerControlCode, "AL_SELECT_TASK_APPLICATION"));
    ("KEY_NEXT", (ConsumerControlCode, "AL_NEXT_TASK_APPLICATION"));
    ("KEY_PREVIOUS", (ConsumerControlCode, "AL_PREVIOUS_TASK_APPLICATION"));
    ("KEY_DOCUMENTS", (ConsumerControlCode, "AL_DOCUMENTS"));
    ("KEY_SPELLCHECK", (ConsumerControlCode, "AL_SPELL_CHECK"));
    ("KEY_KEYBOARD", (ConsumerControlCode, "AL_KEYBOARD_LAYOUT"));
    ("KEY_SCREENSAVER", (ConsumerControlCode, "AL_SCREEN_SAVER"));
    ("KEY_IMAGES", (ConsumerControlCode, "AL_IMAGE_BROWSER"));
    ("KEY_AUDIO", (ConsumerControlCode, "AL_AUDIO_BROWSER"));
    ("KEY_VIDEO", (ConsumerControlCode, "AL_MOVIE_BROWSER"));
    ("KEY_MESSENGER", (ConsumerControlCode, "AL_INSTANT_MESSAGING"));
    ("KEY_ASSISTANT", (ConsumerControlCode, "AL_CONTEXT_AWARE_DESKTOP_ASSISTANT"));
    ("KEY_NEW", (ConsumerControlCode, "AC_NEW"));
    ("KEY_OPEN", (ConsumerControlCode, "AC_OPEN"));
    ("KEY_CLOSE", (ConsumerControlCode, "AC_CLOSE"));
    ("KEY_SAVE", (ConsumerControlCode, "AC_SAVE"));
    ("KEY_PROPS", (ConsumerControlCode, "AC_PROPERTIES"));
    ("KEY_UNDO", (ConsumerControlCode, "AC_UNDO"));
    ("KEY_COPY", (ConsumerControlCode, "AC_COPY"));
    ("KEY_CUT", (ConsumerControlCode, "AC_CUT"));
    ("KEY_PASTE", (ConsumerControlCode, "AC_PASTE"));
    ("KEY_FIND", (ConsumerControlCode, "AC_FIND"));
    ("KEY_SEARCH", (ConsumerControlCode, "AC_SEARCH"));
    ("KEY_GOTO", (ConsumerControlCode, "AC_GO_TO"));
    ("KEY_HOMEPAGE", (ConsumerControlCode, "AC_HOME"));
    ("KEY_BACK", (ConsumerControlCode, "AC_BACK"));
    ("KEY_FORWARD", (ConsumerControlCode, "AC_FORWARD"));
    ("KEY_STOP", (ConsumerControlCode, "AC_STOP"));
    ("KEY_REFRESH", (ConsumerControlCode, "AC_REFRESH"));
    ("KEY_ZOOMIN", (ConsumerControlCode, "AC_ZOOM_IN"));
    ("KEY_ZOOMOUT", (ConsumerControlCode, "AC_ZOOM_OUT"));
    ("KEY_ZOOMRESET", (ConsumerControlCode, "AC_ZOOM"));
    ("KEY_FULL_SCREEN", (ConsumerControlCode, "AC_VIEW_TOGGLE"));
    ("KEY_SCROLLUP", (ConsumerControlCode, "AC_SCROLL_UP"));
    ("KEY_SCROLLDOWN", (ConsumerControlCode, "AC_SCROLL_DOWN"));
    ("KEY_EDIT", (ConsumerControlCode, "AC_EDIT"));
    ("KEY_CANCEL", (ConsumerControlCode, "AC_CANCEL"));
    ("KEY_REDO", (ConsumerControlCode, "AC_REDO_REPEAT"));
    ("KEY_REPLY", (ConsumerControlCode, "AC_REPLY"));
    ("KEY_FORWARDMAIL", (ConsumerControlCode, "AC_FORWARD_MSG"));
    ("KEY_SEND", (ConsumerControlCode, "AC_SEND"));
    ("KEY_KBD_LAYOUT_NEXT", (ConsumerControlCode, "AC_NEXT_KEYBOARD_LAYOUT_SELECT"));
    ("KEY_ALL_APPLICATIONS", (ConsumerControlCode, "AC_DESKTOP_SHOW_ALL_APPLICATIONS"));
    ("KEY_KBDINPUTASSIST_PREV", (ConsumerControlCode, "KEYBOARD_INPUT_ASSIST_PREVIOUS"));
    ("KEY_KBDINPUTASSIST_NEXT", (ConsumerControlCode, "KEYBOARD_INPUT_ASSIST_NEXT"));
    ("KEY_KBDINPUTASSIST_PREVGROUP", (ConsumerControlCode, "KEYBOARD_INPUT_ASSIST_PREVIOUS_GROUP"));
    ("KEY_KBDINPUTASSIST_NEXTGROUP", (ConsumerControlCode, "KEYBOARD_INPUT_ASSIST_NEXT_GROUP"));
    ("KEY_KBDINPUTASSIST_ACCEPT", (ConsumerControlCode, "KEYBOARD_INPUT_ASSIST_ACCEPT"));
    ("KEY_KBDINPUTASSIST_CANCEL", (ConsumerControlCode, "KEYBOARD_INPUT_ASSIST_CANCEL"));
    ("KEY_SCALE", (ConsumerControlCode, "AC_DESKTOP_SHOW_ALL_WINDOWS"))
  ].

Definition _CONSUMER_KEYS_literal : list string :=
  [
    "KEY_POWER"; "KEY_RESTART"; "KEY_SLEEP"; "BTN_MISC"; "KEY_MENU";
    "KEY_SELECT"; "KEY_INFO"; "KEY_SUBTITLE"; "KEY_VCR"; "KEY_CAMERA";
    "KEY_RED"; "KEY_GREEN"; "KEY_BLUE"; "KEY_YELLOW"; "KEY_ASPECT_RATIO";
    "KEY_BRIGHTNESSUP"; "KEY_BRIGHTNESSDOWN"; "KEY_BRIGHTNESS_TOGGLE";
    "KEY_BRIGHTNESS_MIN"; "KEY_BRIGHTNESS_MAX"; "KEY_BRIGHTNESS_AUTO";
    "KEY_CAMERA_ACCESS_ENABLE"; "KEY_CAMERA_ACCESS_DISABLE";
    "KEY_CAMERA_ACCESS_TOGGLE"; "KEY_KBDILLUMUP"; "KEY_KBDILLUMDOWN";
    "KEY_KBDILLUMTOGGLE"; "KEY_VIDEO_NEXT"; "KEY_LAST"; "KEY_PC"; "KEY_TV";
    "KEY_WWW"; "KEY_DVD"; "KEY_PHONE"; "KEY_PROGRAM"; "KEY_VIDEOPHONE";
    "KEY_GAMES"; "KEY_MEMO"; "KEY_CD"; "KEY_TUNER"; "KEY_EXIT"; "KEY_HELP";
    "KEY_TAPE"; "KEY_TV2"; "KEY_SAT"; "KEY_PVR"; "KEY_CHANNELUP";
    "KEY_CHANNELDOWN"; "KEY_VCR2"; "KEY_PLAY"; "KEY_PAUSE"; "KEY_RECORD";
    "KEY_FASTFORWARD"; "KEY_REWIND"; "KEY_NEXTSONG"; "KEY_PREVIOUSSONG";
    "KEY_STOPCD"; "KEY_EJECTCD"; "KEY_MEDIA_REPEAT"; "KEY_SHUFFLE";
    "KEY_SLOW"; "KEY_PLAYPAUSE"; "KEY_VOICECOMMAND"; "KEY_DICTATE";
    "KEY_EMOJI_PICKER"; "KEY_MUTE"; "KEY_BASSBOOST"; "KEY_VOLUMEUP";
    "KEY_VOLUMEDOWN"; "KEY_BUTTONCONFIG"; "KEY_BOOKMARKS"; "KEY_CONFIG";
    "KEY_WORDPROCESSOR"; "KEY_EDITOR"; "KEY_SPREADSHEET";
    "KEY_GRAPHICSEDITOR"; "KEY_PRESENTATION"; "KEY_DATABASE"; "KEY_MAIL";
    "KEY_NEWS"; "KEY_VOICEMAIL"; "KEY_ADDRESSBOOK"; "KEY_CALENDAR";
    "KEY_TASKMANAGER"; "KEY_JOURNAL"; "KEY_FINANCE"; "KEY_CALC";
    "KEY_PLAYER"; "KEY_FILE"; "KEY_CHAT"; "KEY_LOGOFF"; "KEY_COFFEE";
    "KEY_CONTROLPANEL"; "KEY_APPSELECT"; "KEY_NEXT"; "KEY_PREVIOUS";
    "KEY_DOCUMENTS"; "KEY_SPELLCHECK"; "KEY_KEYBOARD"; "KEY_SCREENSAVER";
    "KEY_IMAGES"; "KEY_AUDIO"; "KEY_VIDEO"; "KEY_MESSENGER"; "KEY_ASSISTANT";
    "KEY_NEW"; "KEY_OPEN"; "KEY_CLOSE"; "KEY_SAVE"; "KEY_PROPS"; "KEY_UNDO";
    "KEY_COPY"; "KEY_CUT"; "KEY_PASTE"; "KEY_FIND"; "KEY_SEARCH"; "KEY_GOTO";
    "KEY_HOMEPAGE"; "KEY_BACK"; "KEY_FORWARD"; "KEY_STOP"; "KEY_REFRESH";
    "KEY_ZOOMIN"; "KEY_ZOOMOUT"; "KEY_ZOOMRESET"; "KEY_FULL_SCREEN";
    "KEY_SCROLLUP"; "KEY_SCROLLDOWN"; "KEY_EDIT"; "KEY_CANCEL"; "KEY_REDO";
    "KEY_REPLY"; "KEY_FORWARDMAIL"; "KEY_SEND"; "KEY_KBD_LAYOUT_NEXT";
    "KEY_ALL_APPLICATIONS"; "KEY_KBDINPUTASSIST_PREV";
    "KEY_KBDINPUTASSIST_NEXT"; "KEY_KBDINPUTASSIST_PREVGROUP";
    "KEY_KBDINPUTASSIST_NEXTGROUP"; "KEY_KBDINPUTASSIST_ACCEPT";
    "KEY_KBDINPUTASSIST_CANCEL"; "KEY_SCALE"
  ].

Definition _MOUSE_BUTTONS_literal : list string :=
  [
    "BTN_LEFT"; "BTN_RIGHT"; "BTN_MIDDLE"
  ].

(** ** A reference environment

    Scan codes as in Linux's [input-event-codes.h] ([KEY_], [BTN_] and
    [REL_] names), usage ids as in the USB HID usage tables (keyboard page
    0x07, consumer page 0x0C, button bits of the mouse report), each class
    with the attributes every Python class has.  The theorems below hold
    for every environment; this one instantiates them. *)
Definition ref_ecodes : namespace :=
  [
    ("BTN", PyObj); ("BTN_0", PyInt 256); ("BTN_1", PyInt 257);
    ("BTN_2", PyInt 258); ("BTN_3", PyInt 259); ("BTN_4", PyInt 260);
    ("BTN_5", PyInt 261); ("BTN_6", PyInt 262); ("BTN_7", PyInt 263);
    ("BTN_8", PyInt 264); ("BTN_9", PyInt 265); ("BTN_A", PyInt 304);
    ("BTN_B", PyInt 305); ("BTN_BACK", PyInt 278); ("BTN_BASE", PyInt 294);
    ("BTN_BASE2", PyInt 295); ("BTN_BASE3", PyInt 296);
    ("BTN_BASE4", PyInt 297); ("BTN_BASE5", PyInt 298);
    ("BTN_BASE6", PyInt 299); ("BTN_C", PyInt 306); ("BTN_DEAD", PyInt 303);
    ("BTN_DIGI", PyInt 320); ("BTN_DPAD_DOWN", PyInt 545);
    ("BTN_DPAD_LEFT", PyInt 546); ("BTN_DPAD_RIGHT", PyInt 547);
    ("BTN_DPAD_UP", PyInt 544); ("BTN_EAST", PyInt 305);
    ("BTN_EXTRA", PyInt 276); ("BTN_FORWARD", PyInt 277);
    ("BTN_GAMEPAD", PyInt 304); ("BTN_GEAR_DOWN", PyInt 336);
    ("BTN_GEAR_UP", PyInt 337); ("BTN_JOYSTICK", PyInt 288);
    ("BTN_LEFT", PyInt 272); ("BTN_MIDDLE", PyInt 274);
    ("BTN_MISC", PyInt 256); ("BTN_MODE", PyInt 316);
    ("BTN_MOUSE", PyInt 272); ("BTN_NORTH", PyInt 307);
    ("BTN_PINKIE", PyInt 293); ("BTN_RIGHT", PyInt 273);
    ("BTN_SELECT", PyInt 314); ("BTN_SIDE", PyInt 275);
    ("BTN_SOUTH", PyInt 304); ("BTN_START", PyInt 315);
    ("BTN_STYLUS", PyInt 331); ("BTN_STYLUS2", PyInt 332);
    ("BTN_STYLUS3", PyInt 329); ("BTN_TASK", PyInt 279);
    ("BTN_THUMB", PyInt 289); ("BTN_THUMB2", PyInt 290);
    ("BTN_THUMBL", PyInt 317); ("BTN_THUMBR", PyInt 318);
    ("BTN_TL", PyInt 310); ("BTN_TL2", PyInt 312);
    ("BTN_TOOL_AIRBRUSH", PyInt 324); ("BTN_TOOL_BRUSH", PyInt 322);
    ("BTN_TOOL_DOUBLETAP", PyInt 333); ("BTN_TOOL_FINGER", PyInt 325);
    ("BTN_TOOL_LENS", PyInt 327); ("BTN_TOOL_MOUSE", PyInt 326);
    ("BTN_TOOL_PEN", PyInt 320); ("BTN_TOOL_PENCIL", PyInt 323);
    ("BTN_TOOL_QUADTAP", PyInt 335); ("BTN_TOOL_QUINTTAP", PyInt 328);
    ("BTN_TOOL_RUBBER", PyInt 321); ("BTN_TOOL_TRIPLETAP", PyInt 334);
    ("BTN_TOP", PyInt 291); ("BTN_TOP2", PyInt 292);
    ("BTN_TOUCH", PyInt 330); ("BTN_TR", PyInt 311); ("BTN_TR2", PyInt 313);
    ("BTN_TRIGGER", PyInt 288); ("BTN_TRIGGER_HAPPY", PyInt 704);
    ("BTN_TRIGGER_HAPPY1", PyInt 704); ("BTN_TRIGGER_HAPPY10", PyInt 713);
    ("BTN_TRIGGER_HAPPY11", PyInt 714); ("BTN_TRIGGER_HAPPY12", PyInt 715);
    ("BTN_TRIGGER_HAPPY13", PyInt 716); ("BTN_TRIGGER_HAPPY14", PyInt 717);
    ("BTN_TRIGGER_HAPPY15", PyInt 718); ("BTN_TRIGGER_HAPPY16", PyInt 719);
    ("BTN_TRIGGER_HAPPY17", PyInt 720); ("BTN_TRIGGER_HAPPY18", PyInt 721);
    ("BTN_TRIGGER_HAPPY19", PyInt 722); ("BTN_TRIGGER_HAPPY2", PyInt 705);
    ("BTN_TRIGGER_HAPPY20", PyInt 723); ("BTN_TRIGGER_HAPPY21", PyInt 724);
    ("BTN_TRIGGER_HAPPY22", PyInt 725); ("BTN_TRIGGER_HAPPY23", PyInt 726);
    ("BTN_TRIGGER_HAPPY24", PyInt 727); ("BTN_TRIGGER_HAPPY25", PyInt 728);
    ("BTN_TRIGGER_HAPPY26", PyInt 729); ("BTN_TRIGGER_HAPPY27", PyInt 730);
    ("BTN_TRIGGER_HAPPY28", PyInt 731); ("BTN_TRIGGER_HAPPY29", PyInt 732);
    ("BTN_TRIGGER_HAPPY3", PyInt 706); ("BTN_TRIGGER_HAPPY30", PyInt 733);
    ("BTN_TRIGGER_HAPPY31", PyInt 734); ("BTN_TRIGGER_HAPPY32", PyInt 735);
    ("BTN_TRIGGER_HAPPY33", PyInt 736); ("BTN_TRIGGER_HAPPY34", PyInt 737);
    ("BTN_TRIGGER_HAPPY35", PyInt 738); ("BTN_TRIGGER_HAPPY36", PyInt 739);
    ("BTN_TRIGGER_HAPPY37", PyInt 740); ("BTN_TRIGGER_HAPPY38", PyInt 741);
    ("BTN_TRIGGER_HAPPY39", PyInt 742); ("BTN_TRIGGER_HAPPY4", PyInt 707);
    ("BTN_TRIGGER_HAPPY40", PyInt 743); ("BTN_TRIGGER_HAPPY5", PyInt 708);
    ("BTN_TRIGGER_HAPPY6", PyInt 709); ("BTN_TRIGGER_HAPPY7", PyInt 710);
    ("BTN_TRIGGER_HAPPY8", PyInt 711); ("BTN_TRIGGER_HAPPY9", PyInt 712);
    ("BTN_WEST", PyInt 308); ("BTN_WHEEL", PyInt 336); ("BTN_X", PyInt 307);
    ("BTN_Y", PyInt 308); ("BTN_Z", PyInt 309); ("KEY", PyObj);
    ("KEY_0", PyInt 11); ("KEY_1", PyInt 2); ("KEY_102ND", PyInt 86);
    ("KEY_10CHANNELSDOWN", PyInt 441); ("KEY_10CHANNELSUP", PyInt 440);
    ("KEY_2", PyInt 3); ("KEY_3", PyInt 4); ("KEY_3D_MODE", PyInt 623);
    ("KEY_4", PyInt 5); ("KEY_5", PyInt 6); ("KEY_6", PyInt 7);
    ("KEY_7", PyInt 8); ("KEY_8", PyInt 9); ("KEY_9", PyInt 10);
    ("KEY_A", PyInt 30); ("KEY_AB", PyInt 406);
    ("KEY_ADDRESSBOOK", PyInt 429); ("KEY_AGAIN", PyInt 129);
    ("KEY_ALL_APPLICATIONS", PyInt 204); ("KEY_ALS_TOGGLE", PyInt 560);
    ("KEY_ALTERASE", PyInt 222); ("KEY_ANGLE", PyInt 371);
    ("KEY_APOSTROPHE", PyInt 40); ("KEY_APPSELECT", PyInt 580);
    ("KEY_ARCHIVE", PyInt 361); ("KEY_ASPECT_RATIO", PyInt 375);
    ("KEY_ASSISTANT", PyInt 583); ("KEY_ATTENDANT_OFF", PyInt 540);
    ("KEY_ATTENDANT_ON", PyInt 539); ("KEY_ATTENDANT_TOGGLE", PyInt 541);
    ("KEY_AUDIO", PyInt 392); ("KEY_AUDIO_DESC", PyInt 622);
    ("KEY_AUTOPILOT_ENGAGE_TOGGLE", PyInt 637); ("KEY_AUX", PyInt 390);
    ("KEY_B", PyInt 48); ("KEY_BACK", PyInt 158);
    ("KEY_BACKSLASH", PyInt 43); ("KEY_BACKSPACE", PyInt 14);
    ("KEY_BASSBOOST", PyInt 209); ("KEY_BATTERY", PyInt 236);
    ("KEY_BLUE", PyInt 401); ("KEY_BLUETOOTH", PyInt 237);
    ("KEY_BOOKMARKS", PyInt 156); ("KEY_BREAK", PyInt 411);
    ("KEY_BRIGHTNESSDOWN", PyInt 224); ("KEY_BRIGHTNESSUP", PyInt 225);
    ("KEY_BRIGHTNESS_AUTO", PyInt 244); ("KEY_BRIGHTNESS_CYCLE", PyInt 243);
    ("KEY_BRIGHTNESS_MAX", PyInt 593); ("KEY_BRIGHTNESS_MENU", PyInt 649);
    ("KEY_BRIGHTNESS_MIN", PyInt 592); ("KEY_BRIGHTNESS_TOGGLE", PyInt 431);
    ("KEY_BRIGHTNESS_ZERO", PyInt 244); ("KEY_BRL_DOT1", PyInt 497);
    ("KEY_BRL_DOT10", PyInt 506); ("KEY_BRL_DOT2", PyInt 498);
    ("KEY_BRL_DOT3", PyInt 499); ("KEY_BRL_DOT4", PyInt 500);
    ("KEY_BRL_DOT5", PyInt 501); ("KEY_BRL_DOT6", PyInt 502);
    ("KEY_BRL_DOT7", PyInt 503); ("KEY_BRL_DOT8", PyInt 504);
    ("KEY_BRL_DOT9", PyInt 505); ("KEY_BUTTONCONFIG", PyInt 576);
    ("KEY_C", PyInt 46); ("KEY_CALC", PyInt 140);
    ("KEY_CALENDAR", PyInt 397); ("KEY_CAMERA", PyInt 212);
    ("KEY_CAMERA_ACCESS_DISABLE", PyInt 588);
    ("KEY_CAMERA_ACCESS_ENABLE", PyInt 587);
    ("KEY_CAMERA_ACCESS_TOGGLE", PyInt 589); ("KEY_CAMERA_DOWN", PyInt 536);
    ("KEY_CAMERA_FOCUS", PyInt 528); ("KEY_CAMERA_LEFT", PyInt 537);
    ("KEY_CAMERA_RIGHT", PyInt 538); ("KEY_CAMERA_UP", PyInt 535);
    ("KEY_CAMERA_ZOOMIN", PyInt 533); ("KEY_CAMERA_ZOOMOUT", PyInt 534);
    ("KEY_CANCEL", PyInt 223); ("KEY_CAPSLOCK", PyInt 58);
    ("KEY_CD", PyInt 383); ("KEY_CHANNEL", PyInt 363);
    ("KEY_CHANNELDOWN", PyInt 403); ("KEY_CHANNELUP", PyInt 402);
    ("KEY_CHAT", PyInt 216); ("KEY_CLEAR", PyInt 355);
    ("KEY_CLEARVU_SONAR", PyInt 646); ("KEY_CLOSE", PyInt 206);
    ("KEY_CLOSECD", PyInt 160); ("KEY_CNT", PyInt 768);
    ("KEY_COFFEE", PyInt 152); ("KEY_COMMA", PyInt 51);
    ("KEY_COMPOSE", PyInt 127); ("KEY_COMPUTER", PyInt 157);
    ("KEY_CONFIG", PyInt 171); ("KEY_CONNECT", PyInt 218);
    ("KEY_CONTEXT_MENU", PyInt 438); ("KEY_CONTROLPANEL", PyInt 579);
    ("KEY_COPY", PyInt 133); ("KEY_CUT", PyInt 137);
    ("KEY_CYCLEWINDOWS", PyInt 154); ("KEY_D", PyInt 32);
    ("KEY_DASHBOARD", PyInt 204); ("KEY_DATA", PyInt 631);
    ("KEY_DATABASE", PyInt 426); ("KEY_DELETE", PyInt 111);
    ("KEY_DELETEFILE", PyInt 146); ("KEY_DEL_EOL", PyInt 448);
    ("KEY_DEL_EOS", PyInt 449); ("KEY_DEL_LINE", PyInt 451);
    ("KEY_DICTATE", PyInt 586); ("KEY_DIGITS", PyInt 413);
    ("KEY_DIRECTION", PyInt 153); ("KEY_DIRECTORY", PyInt 394);
    ("KEY_DISPLAYTOGGLE", PyInt 431); ("KEY_DISPLAY_OFF", PyInt 245);
    ("KEY_DOCUMENTS", PyInt 235); ("KEY_DOLLAR", PyInt 434);
    ("KEY_DOT", PyInt 52); ("KEY_DOWN", PyInt 108);
    ("KEY_DUAL_RANGE_RADAR", PyInt 643); ("KEY_DVD", PyInt 389);
    ("KEY_E", PyInt 18); ("KEY_EDIT", PyInt 176); ("KEY_EDITOR", PyInt 422);
    ("KEY_EJECTCD", PyInt 161); ("KEY_EJECTCLOSECD", PyInt 162);
    ("KEY_EMAIL", PyInt 215); ("KEY_EMOJI_PICKER", PyInt 585);
    ("KEY_END", PyInt 107); ("KEY_ENTER", PyInt 28); ("KEY_EPG", PyInt 365);
    ("KEY_EQUAL", PyInt 13); ("KEY_ESC", PyInt 1); ("KEY_EURO", PyInt 435);
    ("KEY_EXIT", PyInt 174); ("KEY_F", PyInt 33); ("KEY_F1", PyInt 59);
    ("KEY_F10", PyInt 68); ("KEY_F11", PyInt 87); ("KEY_F12", PyInt 88);
    ("KEY_F13", PyInt 183); ("KEY_F14", PyInt 184); ("KEY_F15", PyInt 185);
    ("KEY_F16", PyInt 186); ("KEY_F17", PyInt 187); ("KEY_F18", PyInt 188);
    ("KEY_F19", PyInt 189); ("KEY_F2", PyInt 60); ("KEY_F20", PyInt 190);
    ("KEY_F21", PyInt 191); ("KEY_F22", PyInt 192); ("KEY_F23", PyInt 193);
    ("KEY_F24", PyInt 194); ("KEY_F3", PyInt 61); ("KEY_F4", PyInt 62);
    ("KEY_F5", PyInt 63); ("KEY_F6", PyInt 64); ("KEY_F7", PyInt 65);
    ("KEY_F8", PyInt 66); ("KEY_F9", PyInt 67);
    ("KEY_FASTFORWARD", PyInt 208); ("KEY_FASTREVERSE", PyInt 629);
    ("KEY_FAVORITES", PyInt 364); ("KEY_FILE", PyInt 144);
    ("KEY_FINANCE", PyInt 219); ("KEY_FIND", PyInt 136);
    ("KEY_FIRST", PyInt 404); ("KEY_FISHING_CHART", PyInt 641);
    ("KEY_FN", PyInt 464); ("KEY_FN_1", PyInt 478); ("KEY_FN_2", PyInt 479);
    ("KEY_FN_B", PyInt 484); ("KEY_FN_D", PyInt 480);
    ("KEY_FN_E", PyInt 481); ("KEY_FN_ESC", PyInt 465);
    ("KEY_FN_F", PyInt 482); ("KEY_FN_F1", PyInt 466);
    ("KEY_FN_F10", PyInt 475); ("KEY_FN_F11", PyInt 476);
    ("KEY_FN_F12", PyInt 477); ("KEY_FN_F2", PyInt 467);
    ("KEY_FN_F3", PyInt 468); ("KEY_FN_F4", PyInt 469);
    ("KEY_FN_F5", PyInt 470); ("KEY_FN_F6", PyInt 471);
    ("KEY_FN_F7", PyInt 472); ("KEY_FN_F8", PyInt 473);
    ("KEY_FN_F9", PyInt 474); ("KEY_FN_RIGHT_SHIFT", PyInt 485);
    ("KEY_FN_S", PyInt 483); ("KEY_FORWARD", PyInt 159);
    ("KEY_FORWARDMAIL", PyInt 233); ("KEY_FRAMEBACK", PyInt 436);
    ("KEY_FRAMEFORWARD", PyInt 437); ("KEY_FRONT", PyInt 132);
    ("KEY_FULL_SCREEN", PyInt 372); ("KEY_G", PyInt 34);
    ("KEY_GAMES", PyInt 417); ("KEY_GOTO", PyInt 354);
    ("KEY_GRAPHICSEDITOR", PyInt 424); ("KEY_GRAVE", PyInt 41);
    ("KEY_GREEN", PyInt 399); ("KEY_H", PyInt 35);
    ("KEY_HANGEUL", PyInt 122); ("KEY_HANGUEL", PyInt 122);
    ("KEY_HANGUP_PHONE", PyInt 446); ("KEY_HANJA", PyInt 123);
    ("KEY_HELP", PyInt 138); ("KEY_HENKAN", PyInt 92);
    ("KEY_HIRAGANA", PyInt 91); ("KEY_HOME", PyInt 102);
    ("KEY_HOMEPAGE", PyInt 172); ("KEY_HP", PyInt 211); ("KEY_I", PyInt 23);
    ("KEY_IMAGES", PyInt 442); ("KEY_INFO", PyInt 358);
    ("KEY_INSERT", PyInt 110); ("KEY_INS_LINE", PyInt 450);
    ("KEY_ISO", PyInt 170); ("KEY_J", PyInt 36); ("KEY_JOURNAL", PyInt 578);
    ("KEY_K", PyInt 37); ("KEY_KATAKANA", PyInt 90);
    ("KEY_KATAKANAHIRAGANA", PyInt 93); ("KEY_KBDILLUMDOWN", PyInt 229);
    ("KEY_KBDILLUMTOGGLE", PyInt 228); ("KEY_KBDILLUMUP", PyInt 230);
    ("KEY_KBDINPUTASSIST_ACCEPT", PyInt 612);
    ("KEY_KBDINPUTASSIST_CANCEL", PyInt 613);
    ("KEY_KBDINPUTASSIST_NEXT", PyInt 609);
    ("KEY_KBDINPUTASSIST_NEXTGROUP", PyInt 611);
    ("KEY_KBDINPUTASSIST_PREV", PyInt 608);
    ("KEY_KBDINPUTASSIST_PREVGROUP", PyInt 610);
    ("KEY_KBD_LAYOUT_NEXT", PyInt 584); ("KEY_KBD_LCD_MENU1", PyInt 696);
    ("KEY_KBD_LCD_MENU2", PyInt 697); ("KEY_KBD_LCD_MENU3", PyInt 698);
    ("KEY_KBD_LCD_MENU4", PyInt 699); ("KEY_KBD_LCD_MENU5", PyInt 700);
    ("KEY_KEYBOARD", PyInt 374); ("KEY_KP0", PyInt 82);
    ("KEY_KP1", PyInt 79); ("KEY_KP2", PyInt 80); ("KEY_KP3", PyInt 81);
    ("KEY_KP4", PyInt 75); ("KEY_KP5", PyInt 76); ("KEY_KP6", PyInt 77);
    ("KEY_KP7", PyInt 71); ("KEY_KP8", PyInt 72); ("KEY_KP9", PyInt 73);
    ("KEY_KPASTERISK", PyInt 55); ("KEY_KPCOMMA", PyInt 121);
    ("KEY_KPDOT", PyInt 83); ("KEY_KPENTER", PyInt 96);
    ("KEY_KPEQUAL", PyInt 117); ("KEY_KPJPCOMMA", PyInt 95);
    ("KEY_KPLEFTPAREN", PyInt 179); ("KEY_KPMINUS", PyInt 74);
    ("KEY_KPPLUS", PyInt 78); ("KEY_KPPLUSMINUS", PyInt 118);
    ("KEY_KPRIGHTPAREN", PyInt 180); ("KEY_KPSLASH", PyInt 98);
    ("KEY_L", PyInt 38); ("KEY_LANGUAGE", PyInt 368);
    ("KEY_LAST", PyInt 405); ("KEY_LEFT", PyInt 105);
    ("KEY_LEFTALT", PyInt 56); ("KEY_LEFTBRACE", PyInt 26);
    ("KEY_LEFTCTRL", PyInt 29); ("KEY_LEFTMETA", PyInt 125);
    ("KEY_LEFTSHIFT", PyInt 42); ("KEY_LEFT_DOWN", PyInt 617);
    ("KEY_LEFT_UP", PyInt 616); ("KEY_LIGHTS_TOGGLE", PyInt 542);
    ("KEY_LINEFEED", PyInt 101); ("KEY_LINK_PHONE", PyInt 447);
    ("KEY_LIST", PyInt 395); ("KEY_LOGOFF", PyInt 433); ("KEY_M", PyInt 50);
    ("KEY_MACRO", PyInt 112); ("KEY_MACRO1", PyInt 656);
    ("KEY_MACRO10", PyInt 665); ("KEY_MACRO11", PyInt 666);
    ("KEY_MACRO12", PyInt 667); ("KEY_MACRO13", PyInt 668);
    ("KEY_MACRO14", PyInt 669); ("KEY_MACRO15", PyInt 670);
    ("KEY_MACRO16", PyInt 671); ("KEY_MACRO17", PyInt 672);
    ("KEY_MACRO18", PyInt 673); ("KEY_MACRO19", PyInt 674);
    ("KEY_MACRO2", PyInt 657); ("KEY_MACRO20", PyInt 675);
    ("KEY_MACRO21", PyInt 676); ("KEY_MACRO22", PyInt 677);
    ("KEY_MACRO23", PyInt 678); ("KEY_MACRO24", PyInt 679);
    ("KEY_MACRO25", PyInt 680); ("KEY_MACRO26", PyInt 681);
    ("KEY_MACRO27", PyInt 682); ("KEY_MACRO28", PyInt 683);
    ("KEY_MACRO29", PyInt 684); ("KEY_MACRO3", PyInt 658);
    ("KEY_MACRO30", PyInt 685); ("KEY_MACRO4", PyInt 659);
    ("KEY_MACRO5", PyInt 660); ("KEY_MACRO6", PyInt 661);
    ("KEY_MACRO7", PyInt 662); ("KEY_MACRO8", PyInt 663);
    ("KEY_MACRO9", PyInt 664); ("KEY_MACRO_PRESET1", PyInt 691);
    ("KEY_MACRO_PRESET2", PyInt 692); ("KEY_MACRO_PRESET3", PyInt 693);
    ("KEY_MACRO_PRESET_CYCLE", PyInt 690);
    ("KEY_MACRO_RECORD_START", PyInt 688);
    ("KEY_MACRO_RECORD_STOP", PyInt 689); ("KEY_MAIL", PyInt 155);
    ("KEY_MARK_WAYPOINT", PyInt 638); ("KEY_MAX", PyInt 767);
    ("KEY_MEDIA", PyInt 226); ("KEY_MEDIA_REPEAT", PyInt 439);
    ("KEY_MEDIA_TOP_MENU", PyInt 619); ("KEY_MEMO", PyInt 396);
    ("KEY_MENU", PyInt 139); ("KEY_MESSENGER", PyInt 430);
    ("KEY_MHP", PyInt 367); ("KEY_MICMUTE", PyInt 248);
    ("KEY_MINUS", PyInt 12); ("KEY_MIN_INTERESTING", PyInt 113);
    ("KEY_MODE", PyInt 373); ("KEY_MOVE", PyInt 175); ("KEY_MP3", PyInt 391);
    ("KEY_MSDOS", PyInt 151); ("KEY_MUHENKAN", PyInt 94);
    ("KEY_MUTE", PyInt 113); ("KEY_N", PyInt 49);
    ("KEY_NAV_CHART", PyInt 640); ("KEY_NAV_INFO", PyInt 648);
    ("KEY_NEW", PyInt 181); ("KEY_NEWS", PyInt 427); ("KEY_NEXT", PyInt 407);
    ("KEY_NEXTSONG", PyInt 163); ("KEY_NEXT_ELEMENT", PyInt 635);
    ("KEY_NEXT_FAVORITE", PyInt 624); ("KEY_NOTIFICATION_CENTER", PyInt 444);
    ("KEY_NUMERIC_0", PyInt 512); ("KEY_NUMERIC_1", PyInt 513);
    ("KEY_NUMERIC_11", PyInt 620); ("KEY_NUMERIC_12", PyInt 621);
    ("KEY_NUMERIC_2", PyInt 514); ("KEY_NUMERIC_3", PyInt 515);
    ("KEY_NUMERIC_4", PyInt 516); ("KEY_NUMERIC_5", PyInt 517);
    ("KEY_NUMERIC_6", PyInt 518); ("KEY_NUMERIC_7", PyInt 519);
    ("KEY_NUMERIC_8", PyInt 520); ("KEY_NUMERIC_9", PyInt 521);
    ("KEY_NUMERIC_A", PyInt 524); ("KEY_NUMERIC_B", PyInt 525);
    ("KEY_NUMERIC_C", PyInt 526); ("KEY_NUMERIC_D", PyInt 527);
    ("KEY_NUMERIC_POUND", PyInt 523); ("KEY_NUMERIC_STAR", PyInt 522);
    ("KEY_NUMLOCK", PyInt 69); ("KEY_O", PyInt 24); ("KEY_OK", PyInt 352);
    ("KEY_ONSCREEN_KEYBOARD", PyInt 632); ("KEY_OPEN", PyInt 134);
    ("KEY_OPTION", PyInt 357); ("KEY_P", PyInt 25);
    ("KEY_PAGEDOWN", PyInt 109); ("KEY_PAGEUP", PyInt 104);
    ("KEY_PASTE", PyInt 135); ("KEY_PAUSE", PyInt 119);
    ("KEY_PAUSECD", PyInt 201); ("KEY_PAUSE_RECORD", PyInt 626);
    ("KEY_PC", PyInt 376); ("KEY_PHONE", PyInt 169);
    ("KEY_PICKUP_PHONE", PyInt 445); ("KEY_PLAY", PyInt 207);
    ("KEY_PLAYCD", PyInt 200); ("KEY_PLAYER", PyInt 387);
    ("KEY_PLAYPAUSE", PyInt 164); ("KEY_POWER", PyInt 116);
    ("KEY_POWER2", PyInt 356); ("KEY_PRESENTATION", PyInt 425);
    ("KEY_PREVIOUS", PyInt 412); ("KEY_PREVIOUSSONG", PyInt 165);
    ("KEY_PREVIOUS_ELEMENT", PyInt 636); ("KEY_PRINT", PyInt 210);
    ("KEY_PRIVACY_SCREEN_TOGGLE", PyInt 633); ("KEY_PROG1", PyInt 148);
    ("KEY_PROG2", PyInt 149); ("KEY_PROG3", PyInt 202);
    ("KEY_PROG4", PyInt 203); ("KEY_PROGRAM", PyInt 362);
    ("KEY_PROPS", PyInt 130); ("KEY_PVR", PyInt 366); ("KEY_Q", PyInt 16);
    ("KEY_QUESTION", PyInt 214); ("KEY_R", PyInt 19);
    ("KEY_RADAR_OVERLAY", PyInt 644); ("KEY_RADIO", PyInt 385);
    ("KEY_RECORD", PyInt 167); ("KEY_RED", PyInt 398);
    ("KEY_REDO", PyInt 182); ("KEY_REFRESH", PyInt 173);
    ("KEY_REFRESH_RATE_TOGGLE", PyInt 562); ("KEY_REPLY", PyInt 232);
    ("KEY_RESERVED", PyInt 0); ("KEY_RESTART", PyInt 408);
    ("KEY_REWIND", PyInt 168); ("KEY_RFKILL", PyInt 247);
    ("KEY_RIGHT", PyInt 106); ("KEY_RIGHTALT", PyInt 100);
    ("KEY_RIGHTBRACE", PyInt 27); ("KEY_RIGHTCTRL", PyInt 97);
    ("KEY_RIGHTMETA", PyInt 126); ("KEY_RIGHTSHIFT", PyInt 54);
    ("KEY_RIGHT_DOWN", PyInt 615); ("KEY_RIGHT_UP", PyInt 614);
    ("KEY_RO", PyInt 89); ("KEY_ROOT_MENU", PyInt 618);
    ("KEY_ROTATE_DISPLAY", PyInt 153); ("KEY_ROTATE_LOCK_TOGGLE", PyInt 561);
    ("KEY_S", PyInt 31); ("KEY_SAT", PyInt 381); ("KEY_SAT2", PyInt 382);
    ("KEY_SAVE", PyInt 234); ("KEY_SCALE", PyInt 120);
    ("KEY_SCREEN", PyInt 375); ("KEY_SCREENLOCK", PyInt 152);
    ("KEY_SCREENSAVER", PyInt 581); ("KEY_SCROLLDOWN", PyInt 178);
    ("KEY_SCROLLLOCK", PyInt 70); ("KEY_SCROLLUP", PyInt 177);
    ("KEY_SEARCH", PyInt 217); ("KEY_SELECT", PyInt 353);
    ("KEY_SELECTIVE_SCREENSHOT", PyInt 634); ("KEY_SEMICOLON", PyInt 39);
    ("KEY_SEND", PyInt 231); ("KEY_SENDFILE", PyInt 145);
    ("KEY_SETUP", PyInt 141); ("KEY_SHOP", PyInt 221);
    ("KEY_SHUFFLE", PyInt 410); ("KEY_SIDEVU_SONAR", PyInt 647);
    ("KEY_SINGLE_RANGE_RADAR", PyInt 642); ("KEY_SLASH", PyInt 53);
    ("KEY_SLEEP", PyInt 142); ("KEY_SLOW", PyInt 409);
    ("KEY_SLOWREVERSE", PyInt 630); ("KEY_SOS", PyInt 639);
    ("KEY_SOUND", PyInt 213); ("KEY_SPACE", PyInt 57);
    ("KEY_SPELLCHECK", PyInt 432); ("KEY_SPORT", PyInt 220);
    ("KEY_SPREADSHEET", PyInt 423); ("KEY_STOP", PyInt 128);
    ("KEY_STOPCD", PyInt 166); ("KEY_STOP_RECORD", PyInt 625);
    ("KEY_SUBTITLE", PyInt 370); ("KEY_SUSPEND", PyInt 205);
    ("KEY_SWITCHVIDEOMODE", PyInt 227); ("KEY_SYSRQ", PyInt 99);
    ("KEY_T", PyInt 20); ("KEY_TAB", PyInt 15); ("KEY_TAPE", PyInt 384);
    ("KEY_TASKMANAGER", PyInt 577); ("KEY_TEEN", PyInt 414);
    ("KEY_TEXT", PyInt 388); ("KEY_TIME", PyInt 359);
    ("KEY_TITLE", PyInt 369); ("KEY_TOUCHPAD_OFF", PyInt 532);
    ("KEY_TOUCHPAD_ON", PyInt 531); ("KEY_TOUCHPAD_TOGGLE", PyInt 530);
    ("KEY_TRADITIONAL_SONAR", PyInt 645); ("KEY_TUNER", PyInt 386);
    ("KEY_TV", PyInt 377); ("KEY_TV2", PyInt 378); ("KEY_TWEN", PyInt 415);
    ("KEY_U", PyInt 22); ("KEY_UNDO", PyInt 131); ("KEY_UNKNOWN", PyInt 240);
    ("KEY_UNMUTE", PyInt 628); ("KEY_UP", PyInt 103); ("KEY_UWB", PyInt 239);
    ("KEY_V", PyInt 47); ("KEY_VCR", PyInt 379); ("KEY_VCR2", PyInt 380);
    ("KEY_VENDOR", PyInt 360); ("KEY_VIDEO", PyInt 393);
    ("KEY_VIDEOPHONE", PyInt 416); ("KEY_VIDEO_NEXT", PyInt 241);
    ("KEY_VIDEO_PREV", PyInt 242); ("KEY_VOD", PyInt 627);
    ("KEY_VOICECOMMAND", PyInt 582); ("KEY_VOICEMAIL", PyInt 428);
    ("KEY_VOLUMEDOWN", PyInt 114); ("KEY_VOLUMEUP", PyInt 115);
    ("KEY_W", PyInt 17); ("KEY_WAKEUP", PyInt 143); ("KEY_WIMAX", PyInt 246);
    ("KEY_WLAN", PyInt 238); ("KEY_WORDPROCESSOR", PyInt 421);
    ("KEY_WPS_BUTTON", PyInt 529); ("KEY_WWAN", PyInt 246);
    ("KEY_WWW", PyInt 150); ("KEY_X", PyInt 45); ("KEY_XFER", PyInt 147);
    ("KEY_Y", PyInt 21); ("KEY_YELLOW", PyInt 400); ("KEY_YEN", PyInt 124);
    ("KEY_Z", PyInt 44); ("KEY_ZENKAKUHANKAKU", PyInt 85);
    ("KEY_ZOOM", PyInt 372); ("KEY_ZOOMIN", PyInt 418);
    ("KEY_ZOOMOUT", PyInt 419); ("KEY_ZOOMRESET", PyInt 420); ("REL", PyObj);
    ("REL_CNT", PyInt 16); ("REL_DIAL", PyInt 7); ("REL_HWHEEL", PyInt 6);
    ("REL_HWHEEL_HI_RES", PyInt 12); ("REL_MAX", PyInt 15);
    ("REL_MISC", PyInt 9); ("REL_RESERVED", PyInt 10); ("REL_RX", PyInt 3);
    ("REL_RY", PyInt 4); ("REL_RZ", PyInt 5); ("REL_WHEEL", PyInt 8);
    ("REL_WHEEL_HI_RES", PyInt 11); ("REL_X", PyInt 0); ("REL_Y", PyInt 1);
    ("REL_Z", PyInt 2); ("__doc__", PyObj); ("__name__", PyObj);
    ("__package__", PyObj); ("bytype", PyObj); ("keys", PyObj)
  ].

Definition ref_Keycode : namespace :=
  [
    ("A", PyInt 4); ("ALT", PyInt 226); ("APPLICATION", PyInt 101);
    ("B", PyInt 5); ("BACKSLASH", PyInt 49); ("BACKSPACE", PyInt 42);
    ("C", PyInt 6); ("CAPS_LOCK", PyInt 57); ("COMMA", PyInt 54);
    ("COMMAND", PyInt 227); ("CONTROL", PyInt 224); ("D", PyInt 7);
    ("DELETE", PyInt 76); ("DOWN_ARROW", PyInt 81); ("E", PyInt 8);
    ("EIGHT", PyInt 37); ("END", PyInt 77); ("ENTER", PyInt 40);
    ("EQUALS", PyInt 46); ("ESCAPE", PyInt 41); ("F", PyInt 9);
    ("F1", PyInt 58); ("F10", PyInt 67); ("F11", PyInt 68);
    ("F12", PyInt 69); ("F13", PyInt 104); ("F14", PyInt 105);
    ("F15", PyInt 106); ("F16", PyInt 107); ("F17", PyInt 108);
    ("F18", PyInt 109); ("F19", PyInt 110); ("F2", PyInt 59);
    ("F20", PyInt 111); ("F21", PyInt 112); ("F22", PyInt 113);
    ("F23", PyInt 114); ("F24", PyInt 115); ("F3", PyInt 60);
    ("F4", PyInt 61); ("F5", PyInt 62); ("F6", PyInt 63); ("F7", PyInt 64);
    ("F8", PyInt 65); ("F9", PyInt 66); ("FIVE", PyInt 34);
    ("FORWARD_SLASH", PyInt 56); ("FOUR", PyInt 33); ("G", PyInt 10);
    ("GRAVE_ACCENT", PyInt 53); ("GUI", PyInt 227); ("H", PyInt 11);
    ("HOME", PyInt 74); ("I", PyInt 12); ("INSERT", PyInt 73);
    ("J", PyInt 13); ("K", PyInt 14); ("KEYPAD_ASTERISK", PyInt 85);
    ("KEYPAD_BACKSLASH", PyInt 100); ("KEYPAD_COMMA", PyInt 133);
    ("KEYPAD_EIGHT", PyInt 96); ("KEYPAD_ENTER", PyInt 88);
    ("KEYPAD_EQUALS", PyInt 103); ("KEYPAD_FIVE", PyInt 93);
    ("KEYPAD_FORWARD_SLASH", PyInt 84); ("KEYPAD_FOUR", PyInt 92);
    ("KEYPAD_MINUS", PyInt 86); ("KEYPAD_NINE", PyInt 97);
    ("KEYPAD_NUMLOCK", PyInt 83); ("KEYPAD_ONE", PyInt 89);
    ("KEYPAD_PERIOD", PyInt 99); ("KEYPAD_PLUS", PyInt 87);
    ("KEYPAD_SEVEN", PyInt 95); ("KEYPAD_SIX", PyInt 94);
    ("KEYPAD_THREE", PyInt 91); ("KEYPAD_TWO", PyInt 90);
    ("KEYPAD_ZERO", PyInt 98); ("L", PyInt 15); ("LEFT_ALT", PyInt 226);
    ("LEFT_ARROW", PyInt 80); ("LEFT_BRACKET", PyInt 47);
    ("LEFT_CONTROL", PyInt 224); ("LEFT_GUI", PyInt 227);
    ("LEFT_SHIFT", PyInt 225); ("M", PyInt 16); ("MINUS", PyInt 45);
    ("N", PyInt 17); ("NINE", PyInt 38); ("O", PyInt 18); ("ONE", PyInt 30);
    ("OPTION", PyInt 226); ("P", PyInt 19); ("PAGE_DOWN", PyInt 78);
    ("PAGE_UP", PyInt 75); ("PAUSE", PyInt 72); ("PERIOD", PyInt 55);
    ("POUND", PyInt 50); ("POWER", PyInt 102); ("PRINT_SCREEN", PyInt 70);
    ("Q", PyInt 20); ("QUOTE", PyInt 52); ("R", PyInt 21);
    ("RETURN", PyInt 40); ("RIGHT_ALT", PyInt 230);
    ("RIGHT_ARROW", PyInt 79); ("RIGHT_BRACKET", PyInt 48);
    ("RIGHT_CONTROL", PyInt 228); ("RIGHT_GUI", PyInt 231);
    ("RIGHT_SHIFT", PyInt 229); ("S", PyInt 22); ("SCROLL_LOCK", PyInt 71);
    ("SEMICOLON", PyInt 51); ("SEVEN", PyInt 36); ("SHIFT", PyInt 225);
    ("SIX", PyInt 35); ("SPACEBAR", PyInt 44); ("T", PyInt 23);
    ("TAB", PyInt 43); ("THREE", PyInt 32); ("TWO", PyInt 31);
    ("U", PyInt 24); ("UP_ARROW", PyInt 82); ("V", PyInt 25);
    ("W", PyInt 26); ("WINDOWS", PyInt 227); ("X", PyInt 27);
    ("Y", PyInt 28); ("Z", PyInt 29); ("ZERO", PyInt 39);
    ("__class__", PyObj); ("__delattr__", PyObj); ("__dict__", PyObj);
    ("__dir__", PyObj); ("__doc__", PyObj); ("__eq__", PyObj);
    ("__format__", PyObj); ("__ge__", PyObj); ("__getattribute__", PyObj);
    ("__getstate__", PyObj); ("__gt__", PyObj); ("__hash__", PyObj);
    ("__init__", PyObj); ("__init_subclass__", PyObj); ("__le__", PyObj);
    ("__lt__", PyObj); ("__module__", PyObj); ("__ne__", PyObj);
    ("__new__", PyObj); ("__reduce__", PyObj); ("__reduce_ex__", PyObj);
    ("__repr__", PyObj); ("__setattr__", PyObj); ("__sizeof__", PyObj);
    ("__str__", PyObj); ("__subclasshook__", PyObj); ("__weakref__", PyObj);
    ("modifier_bit", PyObj)
  ].

Definition ref_ConsumerControlCode : namespace :=
  [
    ("AC_BACK", PyInt 548); ("AC_BOOKMARKS", PyInt 554);
    ("AC_CANCEL", PyInt 607); ("AC_CLOSE", PyInt 515);
    ("AC_COPY", PyInt 539); ("AC_CUT", PyInt 540);
    ("AC_DESKTOP_SHOW_ALL_APPLICATIONS", PyInt 674);
    ("AC_DESKTOP_SHOW_ALL_WINDOWS", PyInt 671); ("AC_EDIT", PyInt 573);
    ("AC_EXIT", PyInt 516); ("AC_FIND", PyInt 543);
    ("AC_FORWARD", PyInt 549); ("AC_FORWARD_MSG", PyInt 651);
    ("AC_GO_TO", PyInt 546); ("AC_HOME", PyInt 547); ("AC_NEW", PyInt 513);
    ("AC_NEXT_KEYBOARD_LAYOUT_SELECT", PyInt 669); ("AC_OPEN", PyInt 514);
    ("AC_PASTE", PyInt 541); ("AC_PROPERTIES", PyInt 521);
    ("AC_REDO_REPEAT", PyInt 633); ("AC_REFRESH", PyInt 551);
    ("AC_REPLY", PyInt 649); ("AC_SAVE", PyInt 519);
    ("AC_SCROLL_DOWN", PyInt 564); ("AC_SCROLL_UP", PyInt 563);
    ("AC_SEARCH", PyInt 545); ("AC_SEND", PyInt 652); ("AC_STOP", PyInt 550);
    ("AC_UNDO", PyInt 538); ("AC_VIEW_TOGGLE", PyInt 562);
    ("AC_ZOOM", PyInt 559); ("AC_ZOOM_IN", PyInt 557);
    ("AC_ZOOM_OUT", PyInt 558); ("AL_AUDIO_BROWSER", PyInt 439);
    ("AL_AV_CAPTURE_PLAYBACK", PyInt 403); ("AL_CALCULATOR", PyInt 402);
    ("AL_CALENDAR_SCHEDULE", PyInt 398); ("AL_CHECKBOOK_FINANCE", PyInt 401);
    ("AL_CONSUMER_CONTROL_CONFIGURATION_TOOL", PyInt 387);
    ("AL_CONTACTS_ADDRESS_BOOK", PyInt 397);
    ("AL_CONTEXT_AWARE_DESKTOP_ASSISTANT", PyInt 459);
    ("AL_CONTROL_PANEL", PyInt 415); ("AL_DATABASE_APP", PyInt 393);
    ("AL_DOCUMENTS", PyInt 423); ("AL_EMAIL_READER", PyInt 394);
    ("AL_FILE_BROWSER", PyInt 436); ("AL_GRAPHICS_EDITOR", PyInt 391);
    ("AL_IMAGE_BROWSER", PyInt 438); ("AL_INSTANT_MESSAGING", PyInt 444);
    ("AL_INTEGRATED_HELP_CENTER", PyInt 422);
    ("AL_INTERNET_BROWSER", PyInt 406); ("AL_KEYBOARD_LAYOUT", PyInt 430);
    ("AL_LAUNCH_BUTTON_CONFIGURATION_TOOL", PyInt 385);
    ("AL_LOGOFF", PyInt 412); ("AL_LOG_JOURNAL_TIMECARD", PyInt 400);
    ("AL_MOVIE_BROWSER", PyInt 440); ("AL_NETWORK_CHAT", PyInt 409);
    ("AL_NEWSREADER", PyInt 395); ("AL_NEXT_TASK_APPLICATION", PyInt 419);
    ("AL_OEM_FEATURES_TIPS_TUTORIAL_BROWSER", PyInt 445);
    ("AL_PRESENTATION_APP", PyInt 392);
    ("AL_PREVIOUS_TASK_APPLICATION", PyInt 420);
    ("AL_SCREEN_SAVER", PyInt 433);
    ("AL_SELECT_TASK_APPLICATION", PyInt 418); ("AL_SPELL_CHECK", PyInt 427);
    ("AL_SPREADSHEET", PyInt 390); ("AL_TASK_PROJECT_MANAGER", PyInt 399);
    ("AL_TERMINAL_LOCK_SCREENSAVER", PyInt 414);
    ("AL_TEXT_EDITOR", PyInt 389); ("AL_VOICEMAIL", PyInt 396);
    ("AL_WORD_PROCESSOR", PyInt 388); ("ASPECT", PyInt 109);
    ("BASS_BOOST", PyInt 229); ("BLUE_MENU_BUTTON", PyInt 107);
    ("CAMERA_ACCESS_DISABLED", PyInt 119);
    ("CAMERA_ACCESS_ENABLED", PyInt 118);
    ("CAMERA_ACCESS_TOGGLE", PyInt 120); ("CHANNEL_DECREMENT", PyInt 157);
    ("CHANNEL_INCREMENT", PyInt 156); ("CLOSED_CAPTION", PyInt 97);
    ("DISPLAY_BACKLIGHT_TOGGLE", PyInt 114);
    ("DISPLAY_BRIGHTNESS_DECREMENT", PyInt 112);
    ("DISPLAY_BRIGHTNESS_INCREMENT", PyInt 111);
    ("DISPLAY_SET_AUTO_BRIGHTNESS", PyInt 117);
    ("DISPLAY_SET_BRIGHTNESS_TO_MAXIMUM", PyInt 116);
    ("DISPLAY_SET_BRIGHTNESS_TO_MINIMUM", PyInt 115); ("EJECT", PyInt 184);
    ("FAST_FORWARD", PyInt 179); ("FUNCTION_BUTTONS", PyInt 54);
    ("GREEN_MENU_BUTTON", PyInt 106);
    ("INVOKE_OR_DISMISS_EMOJI_PICKER", PyInt 217);
    ("KEYBOARD_BACKLIGHT_OOC", PyInt 124);
    ("KEYBOARD_BRIGHTNESS_DECREMENT", PyInt 122);
    ("KEYBOARD_BRIGHTNESS_INCREMENT", PyInt 121);
    ("KEYBOARD_INPUT_ASSIST_ACCEPT", PyInt 715);
    ("KEYBOARD_INPUT_ASSIST_CANCEL", PyInt 716);
    ("KEYBOARD_INPUT_ASSIST_NEXT", PyInt 712);
    ("KEYBOARD_INPUT_ASSIST_NEXT_GROUP", PyInt 714);
    ("KEYBOARD_INPUT_ASSIST_PREVIOUS", PyInt 711);
    ("KEYBOARD_INPUT_ASSIST_PREVIOUS_GROUP", PyInt 713);
    ("MEDIA_SELECT_CABLE", PyInt 151); ("MEDIA_SELECT_CD", PyInt 145);
    ("MEDIA_SELECT_COMPUTER", PyInt 136); ("MEDIA_SELECT_DVD", PyInt 139);
    ("MEDIA_SELECT_GAMES", PyInt 143); ("MEDIA_SELECT_HOME", PyInt 154);
    ("MEDIA_SELECT_MESSAGES", PyInt 144);
    ("MEDIA_SELECT_PROGRAM_GUIDE", PyInt 141);
    ("MEDIA_SELECT_SATELLITE", PyInt 152); ("MEDIA_SELECT_TAPE", PyInt 150);
    ("MEDIA_SELECT_TELEPHONE", PyInt 140); ("MEDIA_SELECT_TUNER", PyInt 147);
    ("MEDIA_SELECT_TV", PyInt 137); ("MEDIA_SELECT_VCR", PyInt 146);
    ("MEDIA_SELECT_VIDEO_PHONE", PyInt 142); ("MENU", PyInt 64);
    ("MENU_PICK", PyInt 65); ("MODE_STEP", PyInt 130); ("MUTE", PyInt 226);
    ("PAUSE", PyInt 177); ("PLAY", PyInt 176); ("PLAY_PAUSE", PyInt 205);
    ("POWER", PyInt 48); ("RANDOM_PLAY", PyInt 185);
    ("RECALL_LAST", PyInt 131); ("RECORD", PyInt 178);
    ("RED_MENU_BUTTON", PyInt 105); ("REPEAT", PyInt 188);
    ("RESET", PyInt 49); ("REWIND", PyInt 180);
    ("SCAN_NEXT_TRACK", PyInt 181); ("SCAN_PREVIOUS_TRACK", PyInt 182);
    ("SLEEP", PyInt 50); ("SLOW", PyInt 245); ("SNAPSHOT", PyInt 101);
    ("START_OR_STOP_VOICE_DICTATION_SESSION", PyInt 216);
    ("STOP", PyInt 183); ("VCR_PLUS", PyInt 160);
    ("VOICE_COMMAND", PyInt 207); ("VOLUME_DECREMENT", PyInt 234);
    ("VOLUME_INCREMENT", PyInt 233); ("YELLOW_MENU_BUTTON", PyInt 108);
    ("__class__", PyObj); ("__delattr__", PyObj); ("__dict__", PyObj);
    ("__dir__", PyObj); ("__doc__", PyObj); ("__eq__", PyObj);
    ("__format__", PyObj); ("__ge__", PyObj); ("__getattribute__", PyObj);
    ("__getstate__", PyObj); ("__gt__", PyObj); ("__hash__", PyObj);
    ("__init__", PyObj); ("__init_subclass__", PyObj); ("__le__", PyObj);
    ("__lt__", PyObj); ("__module__", PyObj); ("__ne__", PyObj);
    ("__new__", PyObj); ("__reduce__", PyObj); ("__reduce_ex__", PyObj);
    ("__repr__", PyObj); ("__setattr__", PyObj); ("__sizeof__", PyObj);
    ("__str__", PyObj); ("__subclasshook__", PyObj); ("__weakref__", PyObj)
  ].

Definition ref_MouseButton : namespace :=
  [
    ("LEFT", PyInt 1); ("MIDDLE", PyInt 4); ("RIGHT", PyInt 2);
    ("__class__", PyObj); ("__delattr__", PyObj); ("__dict__", PyObj);
    ("__dir__", PyObj); ("__doc__", PyObj); ("__eq__", PyObj);
    ("__format__", PyObj); ("__ge__", PyObj); ("__getattribute__", PyObj);
    ("__getstate__", PyObj); ("__gt__", PyObj); ("__hash__", PyObj);
    ("__init__", PyObj); ("__init_subclass__", PyObj); ("__le__", PyObj);
    ("__lt__", PyObj); ("__module__", PyObj); ("__ne__", PyObj);
    ("__new__", PyObj); ("__reduce__", PyObj); ("__reduce_ex__", PyObj);
    ("__repr__", PyObj); ("__setattr__", PyObj); ("__sizeof__", PyObj);
    ("__str__", PyObj); ("__subclasshook__", PyObj); ("__weakref__", PyObj)
  ].


Definition ref_env (c : class_type) : namespace :=
  match c with
  | ecodes => ref_ecodes
  | Keycode => ref_Keycode
  | ConsumerControlCode => ref_ConsumerControlCode
  | MouseButton => ref_MouseButton
  end.

(** The reference environment with a [Keycode] class that has no
    docstring: its [__doc__] is [None]. *)
Definition ref_env_docless (c : class_type) : namespace :=
  match c with
  | Keycode =>
      map (λ nv, if decide (nv.1 = "__doc__") then (nv.1, PyNone) else nv) ref_Keycode
  | _ => ref_env c
  end.

(** ** Events *)

(** [evdev.KeyEvent]: the adapter reads [scancode] only; [keystate] is the
    direction of the event (up, down, hold). *)
Inductive key_state : Type :=
  | key_up
  | key_down
  | key_hold.

Record KeyEvent : Type := {
  scancode : Z;
  keystate : key_state
}.

(** [evdev.InputEvent] and [evdev.RelEvent]. *)
Record InputEvent : Type := {
  type : Z;
  code : Z;
  value : Z
}.

Record RelEvent : Type := {
  event : InputEvent
}.

(** ** [functools.lru_cache] *)

Section lru_cache.
Context {K V : Type} `{EqDecision K}.

(** The cache, most recently used entry first. *)
Fixpoint cache_get (k : K) (c : list (K * V)) : option V :=
  match c with
  | [] => None
  | (k', v) :: c' => if decide (k' = k) then Some v else cache_get k c'
  end.

Definition cache_del (k : K) (c : list (K * V)) : list (K * V) :=
  filter (λ e, e.1 ≠ k) c.

(** A call of a function wrapped in [lru_cache(maxsize)]: a hit returns
    the stored result and makes the entry the most recent one; a miss
    calls the function, stores the result and drops the least recently
    used entry when the cache is full. *)
Definition lru_call (maxsize : nat) (f : K → V) (k : K) (c : list (K * V))
    : V * list (K * V) :=
  match cache_get k c with
  | Some v => (v, (k, v) :: cache_del k c)
  | None => let v := f k in (v, take maxsize ((k, v) :: c))
  end.
End lru_cache.

(** ** State of the module: the two caches and the debug log *)

Inductive log_record : Type :=
  | Unsupported (scancode : Z)
  | Converted (scancode : Z) (key_name : option string)
              (hid_usage_id : Z) (hid_usage_name : option string).

Record state : Type := State {
  getattr_cache : list ((class_type * string) * pyval);
  dir_cache : list (class_type * list string);
  log : list log_record
}.

(** Nothing cached, nothing logged. *)
Definition cold : state := State [] [] [].

Definition M (A : Type) : Type := state → A * state.

Definition ret {A} (a : A) : M A := λ s, (a, s).

Definition bind {A B} (m : M A) (k : A → M B) : M B :=
  λ s, let (a, s') := m s in k a s'.

Notation "'let*' x ':=' m 'in' k" := (bind m (λ x, k))
  (at level 10, x name, m at level 100, k at level 200).

(** [_logger.debug]. *)
Definition debug (r : log_record) : M unit :=
  λ s, (tt, State (getattr_cache s) (dir_cache s) (log s ++ [r])).

(** The module-level tables once the module is imported. *)
Record globals : Type := Globals {
  _EVDEV_TO_HID : gmap Z Z;
  _CONSUMER_KEYS : gset Z;
  _MOUSE_BUTTONS : gset Z
}.

(** A dictionary display: later entries overwrite earlier ones. *)
Definition dict_of_items (items : list (Z * Z)) : gmap Z Z :=
  foldl (λ d kv, <[kv.1 := kv.2]> d) ∅ items.

(** A motion sample has exactly one non-zero field. *)
Definition exactly_one_nonzero (m : Z * Z * Z) : Prop :=
  let '(x, y, w) := m in
  (x ≠ 0 ∧ y = 0 ∧ w = 0) ∨ (x = 0 ∧ y ≠ 0 ∧ w = 0) ∨ (x = 0 ∧ y = 0 ∧ w ≠ 0).

Definition at_most_one_nonzero (m : Z * Z * Z) : Prop :=
  let '(x, y, w) := m in
  (y = 0 ∧ w = 0) ∨ (x = 0 ∧ w = 0) ∨ (x = 0 ∧ y = 0).

(** ** Import of the module

    [env] gives the namespaces behind [ecodes], [Keycode],
    [ConsumerControlCode] and [MouseButton]. *)

Definition resolve_item (env : class_type → namespace)
    (it : string * (class_type * string)) : option (Z * Z) :=
  k ← int_attr (env ecodes) it.1;
  v ← int_attr (env it.2.1) it.2.2;
  Some (k, v).

(** The dictionary a display denotes; [None] when a name in it does not
    resolve (the import fails). *)
Definition build_table (env : class_type → namespace)
    (display : list (string * (class_type * string))) : option (gmap Z Z) :=
  dict_of_items <$> mapM (resolve_item env) display.

Definition build_set (env : class_type → namespace) (names : list string)
    : option (gset Z) :=
  list_to_set <$> mapM (int_attr (env ecodes)) names.

Definition load (env : class_type → namespace) : option globals :=
  table ← build_table env _EVDEV_TO_HID_literal;
  consumer ← build_set env _CONSUMER_KEYS_literal;
  mouse ← build_set env _MOUSE_BUTTONS_literal;
  Some (Globals table consumer mouse).

(** The tables of the module in the reference environment. *)
Definition ref_g : globals := default (Globals ∅ ∅ ∅) (load ref_env).

Section Adapter.
(** The namespaces of the environment and the tables of the imported
    module. *)
Variable env : class_type → namespace.
Variable g : globals.

(** *** The functions of the module *)


Definition _cached_getattr (class_type : class_type) (attribute : string) : M pyval :=
  λ s, let (v, c) := lru_call 512 (λ k, getattr (env k.1) k.2 PyNone)
                       (class_type, attribute) (getattr_cache s) in
       (v, State c (dir_cache s) (log s)).

Definition _cached_dir (class_type : class_type) : M (list string) :=
  λ s, let (l, c) := lru_call 128 (λ k, dir (env k)) class_type (dir_cache s) in
       (l, State (getattr_cache s) c (log s)).

Definition is_mouse_button (event : KeyEvent) : bool :=
  bool_decide (scancode event ∈ _MOUSE_BUTTONS g).

Definition is_consumer_key (event : KeyEvent) : bool :=
  bool_decide (scancode event ∈ _CONSUMER_KEYS g).

Definition get_hid_code_type (event : KeyEvent) : class_type :=
  if is_consumer_key event then ConsumerControlCode
  else if is_mouse_button event then MouseButton
  else Keycode.

(** The [for] loop of [find_key_name] over the attributes still to visit. *)
Fixpoint find_key_name_loop (scancode : Z) (attributes : list string)
    : M (option string) :=
  match attributes with
  | [] => ret None
  | attribute :: rest =>
      let* v := _cached_getattr ecodes attribute in
      if py_eq v (PyInt scancode) && startswith attribute ["KEY_"; "BTN_"]
      then ret (Some attribute)
      else find_key_name_loop scancode rest
  end.

Definition find_key_name (event : KeyEvent) : M (option string) :=
  let scancode := scancode event in
  let* attributes := _cached_dir ecodes in
  find_key_name_loop scancode attributes.

(** The [for] loop of [find_usage_name]. *)
Fixpoint find_usage_name_loop (code_type : class_type) (hid_usage_id : option Z)
    (attributes : list string) : M (option string) :=
  match attributes with
  | [] => ret None
  | attribute :: rest =>
      let* v := _cached_getattr code_type attribute in
      if py_eq v (of_option hid_usage_id)
      then ret (Some attribute)
      else find_usage_name_loop code_type hid_usage_id rest
  end.

Definition find_usage_name (event : KeyEvent) (hid_usage_id : option Z)
    : M (option string) :=
  let code_type := get_hid_code_type event in
  let* attributes := _cached_dir code_type in
  find_usage_name_loop code_type hid_usage_id attributes.

Definition evdev_to_hid (event : KeyEvent) : M (option Z * option string) :=
  let scancode := scancode event in
  let hid_usage_id := _EVDEV_TO_HID g !! scancode in
  let* key_name := find_key_name event in
  let* hid_usage_name := find_usage_name event hid_usage_id in
  let* _ := match hid_usage_id with
            | None => debug (Unsupported scancode)
            | Some id => debug (Converted scancode key_name id hid_usage_name)
            end in
  ret (hid_usage_id, hid_usage_name).

(** [ecodes.REL_X] and the like are read when the function runs, one
    after the other as the [if] chain needs them; [None] is the
    [AttributeError] of a name that [ecodes] lacks. *)
Definition get_mouse_movement (rel_event : RelEvent) : option (Z * Z * Z) :=
  let input_event := event rel_event in
  rel_x ← lookup_attr (env ecodes) "REL_X";
  if py_eq (PyInt (code input_event)) rel_x then Some (value input_event, 0, 0)
  else
    rel_y ← lookup_attr (env ecodes) "REL_Y";
    if py_eq (PyInt (code input_event)) rel_y then Some (0, value input_event, 0)
    else
      rel_wheel ← lookup_attr (env ecodes) "REL_WHEEL";
      if py_eq (PyInt (code input_event)) rel_wheel then Some (0, 0, value input_event)
      else Some (0, 0, 0).

(** *** Cache-free readings of the two name resolvers

    What the loops compute when every attribute is read from the
    namespace itself; [find_key_name_run] and [find_usage_name_run] below
    relate the functions to them. *)

Definition key_name_of (scancode : Z) : option string :=
  List.find (λ a, py_eq (getattr (env ecodes) a PyNone) (PyInt scancode)
                  && startswith a ["KEY_"; "BTN_"])
            (dir (env ecodes)).

Definition usage_name_of (code_type : class_type) (hid_usage_id : option Z)
    : option string :=
  List.find (λ a, py_eq (getattr (env code_type) a PyNone) (of_option hid_usage_id))
            (dir (env code_type)).

(** The record [evdev_to_hid] logs for an event. *)
Definition log_record_of (ev : KeyEvent) : log_record :=
  match _EVDEV_TO_HID g !! scancode ev with
  | None => Unsupported (scancode ev)
  | Some id => Converted (scancode ev) (key_name_of (scancode ev)) id
                 (usage_name_of (get_hid_code_type ev) (Some id))
  end.

(** Every cached result is the result of the wrapped function. *)
Definition caches_ok (s : state) : Prop :=
  (∀ k v, (k, v) ∈ getattr_cache s → v = getattr (env k.1) k.2 PyNone) ∧
  (∀ k l, (k, l) ∈ dir_cache s → l = dir (env k)).

(** The states the module can be in: [cold] at import, then whatever the
    calls of its functions leave behind. *)
Inductive reachable : state → Prop :=
  | reach_cold : reachable cold
  | reach_cached_getattr s c a :
      reachable s → reachable (_cached_getattr c a s).2
  | reach_cached_dir s c :
      reachable s → reachable (_cached_dir c s).2
  | reach_find_key_name s ev :
      reachable s → reachable (find_key_name ev s).2
  | reach_find_usage_name s ev id :
      reachable s → reachable (find_usage_name ev id s).2
  | reach_evdev_to_hid s ev :
      reachable s → reachable (evdev_to_hid ev s).2.

(** The import succeeded and left the tables [g]. *)
Definition loaded : Prop := load env = Some g.

(** No two names of [_CONSUMER_KEYS] denote the same scan code. *)
Definition consumer_codes_distinct : Prop :=
  ∀ a b, a ∈ _CONSUMER_KEYS_literal → b ∈ _CONSUMER_KEYS_literal →
         int_attr (env ecodes) a = int_attr (env ecodes) b → a = b.

(** No attribute of the class has the value [None]. *)
Definition no_None_attribute (c : class_type) : Prop :=
  ∀ a, a ∈ dir (env c) → getattr (env c) a PyNone ≠ PyNone.

(** The display of [_EVDEV_TO_HID] without the two keyboard-page entries
    for [KEY_PAUSE] and [KEY_POWER]. *)
Definition _EVDEV_TO_HID_without_keyboard_power_pause
    : list (string * (class_type * string)) :=
  filter (λ it, it ≠ ("KEY_PAUSE", (Keycode, "PAUSE")) ∧
                it ≠ ("KEY_POWER", (Keycode, "POWER")))
         _EVDEV_TO_HID_literal.

(** The entries of the display that take their value from class [c]. *)
Definition display_of (c : class_type) : list (string * (class_type * string)) :=
  filter (λ it, it.2.1 = c) _EVDEV_TO_HID_literal.

(** The caches respect the capacities of their [lru_cache] wrappers and
    hold every key once. *)
Definition caches_bounded (s : state) : Prop :=
  (length (getattr_cache s) ≤ 512)%nat ∧ (length (dir_cache s) ≤ 128)%nat ∧
  NoDup (getattr_cache s).*1 ∧ NoDup (dir_cache s).*1.

(** No two key names of the display denote the same scan code. *)
Definition display_codes_distinct : Prop :=
  ∀ a b, a ∈ _EVDEV_TO_HID_literal.*1 → b ∈ _EVDEV_TO_HID_literal.*1 →
         int_attr (env ecodes) a = int_attr (env ecodes) b → a = b.

(** The items a display resolves to. *)
Definition resolves (display : list (string * (class_type * string)))
    (items : list (Z * Z)) : Prop :=
  Forall2 (λ it kv, resolve_item env it = Some kv) display items.

(** ** Lemmas *)

(** *** The caches *)

Lemma cache_get_elem_of {K V} `{EqDecision K} (k : K) (c : list (K * V)) v :
  cache_get k c = Some v → (k, v) ∈ c.
Proof.
  induction c as [|[k' v'] c IH]; simpl; [done|].
  case_decide as Hk.
  - intros [= ->]. subst k'. left.
  - intros Hget. right. by apply IH.
Qed.

Lemma lru_call_ok {K V} `{EqDecision K} n (f : K → V) k (c : list (K * V)) :
  (∀ k' v', (k', v') ∈ c → v' = f k') →
  (lru_call n f k c).1 = f k ∧
  (∀ k' v', (k', v') ∈ (lru_call n f k c).2 → v' = f k').
Proof.
  intros Hc. unfold lru_call.
  destruct (cache_get k c) as [v|] eqn:Hget; simpl.
  - pose proof (Hc _ _ (cache_get_elem_of _ _ _ Hget)) as ->.
    split; [done|]. intros k' v' Hin.
    apply elem_of_cons in Hin as [[= -> ->]|Hin]; [done|].
    unfold cache_del in Hin. apply list_elem_of_filter in Hin as [_ Hin].
    by apply Hc.
  - split; [done|]. intros k' v' Hin.
    destruct n as [|n]; simpl in Hin; [by apply elem_of_nil in Hin|].
    apply elem_of_cons in Hin as [[= -> ->]|Hin]; [done|].
    apply Hc. by eapply subseteq_take.
Qed.

Lemma caches_ok_cold : caches_ok cold.
Proof. split; intros ?? Hin; by apply elem_of_nil in Hin. Qed.

Lemma cached_getattr_run c a s :
  caches_ok s →
  ∃ s', _cached_getattr c a s = (getattr (env c) a PyNone, s') ∧
        caches_ok s' ∧ log s' = log s.
Proof.
  intros [Hg Hd]. unfold _cached_getattr.
  pose proof (lru_call_ok 512 (λ k, getattr (env k.1) k.2 PyNone) (c, a)
                (getattr_cache s) Hg) as [Hv Hc].
  destruct (lru_call _ _ _ _) as [v c']. simpl in *. subst v.
  eexists. split; [done|]. by split.
Qed.

Lemma cached_dir_run c s :
  caches_ok s →
  ∃ s', _cached_dir c s = (dir (env c), s') ∧ caches_ok s' ∧ log s' = log s.
Proof.
  intros [Hg Hd]. unfold _cached_dir.
  pose proof (lru_call_ok 128 (λ k, dir (env k)) c (dir_cache s) Hd) as [Hv Hc].
  destruct (lru_call _ _ _ _) as [v c']. simpl in *. subst v.
  eexists. split; [done|]. by split.
Qed.

(** *** The functions run on consistent caches *)

Lemma find_key_name_loop_run sc attrs s :
  caches_ok s →
  ∃ s', find_key_name_loop sc attrs s =
          (List.find (λ a, py_eq (getattr (env ecodes) a PyNone) (PyInt sc)
                           && startswith a ["KEY_"; "BTN_"]) attrs, s') ∧
        caches_ok s' ∧ log s' = log s.
Proof.
  revert s. induction attrs as [|a attrs IH]; intros s Hs.
  - by exists s.
  - destruct (cached_getattr_run ecodes a s Hs) as (s1 & Hrun & Hs1 & Hlog1).
    cbn [find_key_name_loop List.find]. unfold bind at 1. rewrite Hrun.
    destruct (py_eq _ _ && startswith _ _).
    + by exists s1.
    + destruct (IH s1 Hs1) as (s2 & Hrun2 & Hs2 & Hlog2).
      exists s2. split; [done|]. split; [done|congruence].
Qed.

Lemma find_key_name_run ev s :
  caches_ok s →
  ∃ s', find_key_name ev s = (key_name_of (scancode ev), s') ∧
        caches_ok s' ∧ log s' = log s.
Proof.
  intros Hs. unfold find_key_name, bind.
  destruct (cached_dir_run ecodes s Hs) as (s1 & -> & Hs1 & Hlog1).
  destruct (find_key_name_loop_run (scancode ev) (dir (env ecodes)) s1 Hs1)
    as (s2 & Hrun & Hs2 & Hlog2).
  exists s2. split; [done|]. split; [done|congruence].
Qed.

Lemma find_usage_name_loop_run c id attrs s :
  caches_ok s →
  ∃ s', find_usage_name_loop c id attrs s =
          (List.find (λ a, py_eq (getattr (env c) a PyNone) (of_option id)) attrs, s') ∧
        caches_ok s' ∧ log s' = log s.
Proof.
  revert s. induction attrs as [|a attrs IH]; intros s Hs.
  - by exists s.
  - destruct (cached_getattr_run c a s Hs) as (s1 & Hrun & Hs1 & Hlog1).
    cbn [find_usage_name_loop List.find]. unfold bind at 1. rewrite Hrun.
    destruct (py_eq _ _).
    + by exists s1.
    + destruct (IH s1 Hs1) as (s2 & Hrun2 & Hs2 & Hlog2).
      exists s2. split; [done|]. split; [done|congruence].
Qed.

Lemma find_usage_name_run ev id s :
  caches_ok s →
  ∃ s', find_usage_name ev id s = (usage_name_of (get_hid_code_type ev) id, s') ∧
        caches_ok s' ∧ log s' = log s.
Proof.
  intros Hs. unfold find_usage_name, bind.
  destruct (cached_dir_run (get_hid_code_type ev) s Hs) as (s1 & -> & Hs1 & Hlog1).
  destruct (find_usage_name_loop_run (get_hid_code_type ev) id
              (dir (env (get_hid_code_type ev))) s1 Hs1)
    as (s2 & Hrun & Hs2 & Hlog2).
  exists s2. split; [done|]. split; [done|congruence].
Qed.

Lemma evdev_to_hid_run ev s :
  caches_ok s →
  ∃ s', evdev_to_hid ev s =
          ((_EVDEV_TO_HID g !! scancode ev,
            usage_name_of (get_hid_code_type ev) (_EVDEV_TO_HID g !! scancode ev)), s') ∧
        caches_ok s' ∧ log s' = log s ++ [log_record_of ev].
Proof.
  intros Hs. unfold evdev_to_hid, bind.
  destruct (find_key_name_run ev s Hs) as (s1 & -> & Hs1 & Hlog1).
  destruct (find_usage_name_run ev (_EVDEV_TO_HID g !! scancode ev) s1 Hs1)
    as (s2 & -> & Hs2 & Hlog2).
  unfold log_record_of.
  destruct (_EVDEV_TO_HID g !! scancode ev) as [id|]; simpl;
    (eexists; split; [done|]; split; [by destruct Hs2|]; simpl; congruence).
Qed.

Lemma reachable_caches_ok s : reachable s → caches_ok s.
Proof.
  induction 1 as [|s c a _ IH|s c _ IH|s ev _ IH|s ev id _ IH|s ev _ IH].
  - apply caches_ok_cold.
  - by destruct (cached_getattr_run c a s IH) as (s' & -> & ? & _).
  - by destruct (cached_dir_run c s IH) as (s' & -> & ? & _).
  - by destruct (find_key_name_run ev s IH) as (s' & -> & ? & _).
  - by destruct (find_usage_name_run ev id s IH) as (s' & -> & ? & _).
  - by destruct (evdev_to_hid_run ev s IH) as (s' & -> & ? & _).
Qed.

(** *** Dictionary displays *)

Lemma dict_of_items_reverse (l : list (Z * Z)) :
  dict_of_items l = list_to_map (reverse l).
Proof.
  unfold dict_of_items. induction l as [|[k v] l IH] using rev_ind; [done|].
  by rewrite foldl_app, reverse_snoc, IH.
Qed.

Lemma dict_of_items_app (l1 l2 : list (Z * Z)) :
  dict_of_items (l1 ++ l2) = dict_of_items l2 ∪ dict_of_items l1.
Proof. by rewrite !dict_of_items_reverse, reverse_app, list_to_map_app. Qed.

Lemma dict_of_items_Some (l : list (Z * Z)) k v :
  dict_of_items l !! k = Some v → (k, v) ∈ l.
Proof.
  rewrite dict_of_items_reverse. intros H%elem_of_list_to_map_2.
  by rewrite elem_of_reverse in H.
Qed.

Lemma dict_of_items_None (l : list (Z * Z)) k :
  dict_of_items l !! k = None ↔ k ∉ l.*1.
Proof.
  rewrite dict_of_items_reverse, <- not_elem_of_list_to_map.
  by rewrite fmap_reverse, elem_of_reverse.
Qed.

Lemma dict_of_items_is_Some (l : list (Z * Z)) k :
  k ∈ l.*1 → is_Some (dict_of_items l !! k).
Proof.
  intros Hin. destruct (dict_of_items l !! k) eqn:E; [by eexists|].
  by apply dict_of_items_None in E.
Qed.

Lemma dict_of_items_NoDup (l : list (Z * Z)) k v :
  NoDup l.*1 → (k, v) ∈ l → dict_of_items l !! k = Some v.
Proof.
  intros Hnd Hin. rewrite dict_of_items_reverse.
  apply elem_of_list_to_map_1.
  - by rewrite fmap_reverse, reverse_Permutation.
  - by rewrite elem_of_reverse.
Qed.

(** An entry that a later entry with the same key follows does not
    contribute to the dictionary. *)
Lemma dict_of_items_shadowed (l1 l2 : list (Z * Z)) k v :
  k ∈ l2.*1 → dict_of_items (l1 ++ (k, v) :: l2) = dict_of_items (l1 ++ l2).
Proof.
  intros [w Hw]%dict_of_items_is_Some.
  rewrite (dict_of_items_app l1 ((k, v) :: l2)), (dict_of_items_app l1 l2).
  change ((k, v) :: l2) with ([(k, v)] ++ l2). rewrite dict_of_items_app.
  apply map_eq. intros i. rewrite !lookup_union.
  destruct (decide (i = k)) as [->|Hne].
  - rewrite Hw. by destruct (dict_of_items [(k, v)] !! k), (dict_of_items l1 !! k).
  - replace (dict_of_items [(k, v)] !! i) with (@None Z).
    + by destruct (dict_of_items l2 !! i), (dict_of_items l1 !! i).
    + symmetry. apply dict_of_items_None. simpl. by intros ->%list_elem_of_singleton.
Qed.

(** *** Attributes *)

Lemma py_eq_int_true v z : py_eq v (PyInt z) = true → v = PyInt z.
Proof.
  destruct v as [x| |]; simpl; try done.
  intros H%bool_decide_eq_true. by subst.
Qed.

Lemma py_eq_None_true v : py_eq v PyNone = true → v = PyNone.
Proof. by destruct v. Qed.

Lemma py_eq_refl_of_option o : py_eq (of_option o) (of_option o) = true.
Proof. destruct o; simpl; [by apply bool_decide_eq_true|done]. Qed.

Lemma lookup_attr_dir ns a v : lookup_attr ns a = Some v → a ∈ dir ns.
Proof.
  unfold dir. induction ns as [|[n w] ns IH]; simpl; [done|].
  case_decide as Hn.
  - intros _. subst. left.
  - intros H. right. by apply IH.
Qed.

Lemma dir_lookup_attr ns a : a ∈ dir ns → is_Some (lookup_attr ns a).
Proof.
  unfold dir. induction ns as [|[n w] ns IH]; simpl.
  - by intros ?%elem_of_nil.
  - intros Hin. case_decide as Hn; [by eexists|].
    apply elem_of_cons in Hin as [->|Hin]; [done|by apply IH].
Qed.

Lemma int_attr_getattr ns a z d :
  int_attr ns a = Some z → a ∈ dir ns ∧ getattr ns a d = PyInt z.
Proof.
  unfold int_attr, getattr. destruct (lookup_attr ns a) as [[x| |]|] eqn:E; try done.
  intros [= ->]. split; [by eapply lookup_attr_dir|done].
Qed.

(** A usage id that is the value of a constant of the class has a name. *)
Lemma usage_name_of_int_attr c a v :
  int_attr (env c) a = Some v →
  ∃ name, usage_name_of c (Some v) = Some name ∧ name ∈ dir (env c) ∧
          getattr (env c) name PyNone = PyInt v.
Proof.
  intros [Hdir Hget]%(int_attr_getattr _ _ _ PyNone). unfold usage_name_of.
  destruct (List.find _ _) as [name|] eqn:Hfind.
  - apply find_some in Hfind as [Hin Heq]. exists name.
    split; [done|]. split; [by apply list_elem_of_In|].
    by apply py_eq_int_true in Heq.
  - apply list_elem_of_In in Hdir. apply (find_none _ _ Hfind a) in Hdir.
    rewrite Hget in Hdir. simpl in Hdir.
    by rewrite bool_decide_eq_false in Hdir.
Qed.

Lemma usage_name_of_None c :
  no_None_attribute c → usage_name_of c None = None.
Proof.
  intros Hno. unfold usage_name_of.
  destruct (List.find _ _) as [name|] eqn:Hfind; [|done].
  apply find_some in Hfind as [Hin Heq]. simpl in Heq.
  apply py_eq_None_true in Heq. by apply Hno in Heq; [|apply list_elem_of_In].
Qed.

(** *** The display of [_EVDEV_TO_HID]: three sections *)

(** The display lists the keyboard entries first, then the mouse buttons,
    then the consumer keys. *)
Lemma literal_sections :
  _EVDEV_TO_HID_literal =
    display_of Keycode ++ display_of MouseButton ++ display_of ConsumerControlCode.
Proof. vm_compute. reflexivity. Qed.

Lemma display_of_ecodes : display_of ecodes = [].
Proof. vm_compute. reflexivity. Qed.

(** [_CONSUMER_KEYS] and [_MOUSE_BUTTONS] list the keys of the consumer
    and of the mouse section, in the same order. *)
Lemma consumer_names : (display_of ConsumerControlCode).*1 = _CONSUMER_KEYS_literal.
Proof. vm_compute. reflexivity. Qed.

Lemma mouse_names : (display_of MouseButton).*1 = _MOUSE_BUTTONS_literal.
Proof. vm_compute. reflexivity. Qed.

Lemma display_of_class c n c' a : (n, (c', a)) ∈ display_of c → c' = c.
Proof. unfold display_of. by intros [? _]%list_elem_of_filter. Qed.

Lemma resolves_mapM display items :
  mapM (resolve_item env) display = Some items ↔ resolves display items.
Proof. apply mapM_Some. Qed.

Lemma resolves_keys display items :
  resolves display items →
  mapM (int_attr (env ecodes)) display.*1 = Some items.*1.
Proof.
  intros H. apply mapM_Some. induction H as [|it kv d l Hit _ IH]; simpl.
  - constructor.
  - constructor; [|done]. unfold resolve_item in Hit.
    destruct (int_attr (env ecodes) it.1) as [k|]; simpl in *; [|done].
    destruct (int_attr (env it.2.1) it.2.2) as [v|]; simpl in *; [|done].
    by injection Hit as <-.
Qed.

Lemma resolves_item_of display items k v :
  resolves display items → (k, v) ∈ items →
  ∃ n c a, (n, (c, a)) ∈ display ∧
           int_attr (env ecodes) n = Some k ∧ int_attr (env c) a = Some v.
Proof.
  intros H Hin. induction H as [|[n [c a]] kv d l Hit _ IH].
  - by apply elem_of_nil in Hin.
  - apply elem_of_cons in Hin as [<-|Hin].
    + exists n, c, a. split; [left|]. unfold resolve_item in Hit. simpl in Hit.
      destruct (int_attr (env ecodes) n) as [k'|]; simpl in *; [|done].
      destruct (int_attr (env c) a) as [v'|]; simpl in *; [|done].
      by injection Hit as -> ->.
    + destruct (IH Hin) as (n' & c' & a' & Hd & Hk & Hv).
      exists n', c', a'. split; [by right|done].
Qed.

Lemma resolves_entry display items n c a :
  resolves display items → (n, (c, a)) ∈ display →
  ∃ k v, (k, v) ∈ items ∧
         int_attr (env ecodes) n = Some k ∧ int_attr (env c) a = Some v.
Proof.
  intros H Hin. induction H as [|it kv d l Hit _ IH].
  - by apply elem_of_nil in Hin.
  - apply elem_of_cons in Hin as [<-|Hin].
    + unfold resolve_item in Hit. simpl in Hit.
      destruct (int_attr (env ecodes) n) as [k'|]; simpl in *; [|done].
      destruct (int_attr (env c) a) as [v'|]; simpl in *; [|done].
      injection Hit as <-. exists k', v'. split; [left|done].
    + destruct (IH Hin) as (k' & v' & Hd & Hk & Hv).
      exists k', v'. split; [by right|done].
Qed.

(** What a successful import leaves in [g]. *)
Lemma loaded_inv :
  loaded →
  ∃ ik im ic,
    resolves (display_of Keycode) ik ∧
    resolves (display_of MouseButton) im ∧
    resolves (display_of ConsumerControlCode) ic ∧
    _EVDEV_TO_HID g = dict_of_items ic ∪ (dict_of_items im ∪ dict_of_items ik) ∧
    _CONSUMER_KEYS g = list_to_set ic.*1 ∧
    _MOUSE_BUTTONS g = list_to_set im.*1.
Proof.
  unfold loaded, load, build_table, build_set. intros H.
  apply bind_Some in H as (table & Ht & H).
  apply bind_Some in H as (consumer & Hc & H).
  apply bind_Some in H as (mouse & Hm & H).
  injection H as <-. cbn [_EVDEV_TO_HID _CONSUMER_KEYS _MOUSE_BUTTONS].
  apply fmap_Some in Ht as (items & Hitems & ->).
  apply fmap_Some in Hc as (cks & Hcks & ->).
  apply fmap_Some in Hm as (mbs & Hmbs & ->).
  apply resolves_mapM in Hitems. rewrite literal_sections in Hitems.
  apply Forall2_app_inv_l in Hitems as (ik & rest & Hik & Hrest & ->).
  apply Forall2_app_inv_l in Hrest as (im & ic & Him & Hic & ->).
  exists ik, im, ic. split; [done|]. split; [done|]. split; [done|].
  split; [by rewrite !dict_of_items_app, (assoc_L (∪))|].
  pose proof (resolves_keys _ _ Hic) as Hc. rewrite consumer_names, Hcks in Hc.
  pose proof (resolves_keys _ _ Him) as Hm. rewrite mouse_names, Hmbs in Hm.
  by injection Hc as ->; injection Hm as ->.
Qed.

(** *** Classification and the table *)

Lemma evdev_to_hid_id event s :
  (evdev_to_hid event s).1.1 = _EVDEV_TO_HID g !! scancode event.
Proof.
  unfold evdev_to_hid, bind.
  destruct (find_key_name event s) as [key_name s1].
  destruct (find_usage_name event _ s1) as [usage_name s2].
  by destruct (_EVDEV_TO_HID g !! scancode event).
Qed.

(** The value the table gives for a scan code is a constant of the class
    the scan code classifies to. *)
Lemma table_entry_class event v :
  loaded → _EVDEV_TO_HID g !! scancode event = Some v →
  ∃ n a, (n, (get_hid_code_type event, a)) ∈ _EVDEV_TO_HID_literal ∧
         int_attr (env ecodes) n = Some (scancode event) ∧
         int_attr (env (get_hid_code_type event)) a = Some v.
Proof.
  intros (ik & im & ic & Hik & Him & Hic & Ht & Hc & Hm)%loaded_inv Hv.
  assert (∀ c items, resolves (display_of c) items → (scancode event, v) ∈ items →
            ∃ n a, (n, (c, a)) ∈ _EVDEV_TO_HID_literal ∧
                   int_attr (env ecodes) n = Some (scancode event) ∧
                   int_attr (env c) a = Some v) as Hsec.
  { intros c items Hres Hin.
    destruct (resolves_item_of _ _ _ _ Hres Hin) as (n & c' & a & Hd & Hk & Hw).
    pose proof (display_of_class _ _ _ _ Hd) as ->.
    exists n, a. split; [|done].
    unfold display_of in Hd. by apply list_elem_of_filter in Hd as [_ ?]. }
  rewrite Ht in Hv. unfold get_hid_code_type, is_consumer_key, is_mouse_button.
  rewrite Hc, Hm. repeat case_bool_decide.
  - (* a consumer key: the consumer section decides *)
    match goal with H : _ ∈ list_to_set ic.*1 |- _ =>
      apply elem_of_list_to_set, dict_of_items_is_Some in H as [w Hw] end.
    rewrite (lookup_union_Some_l _ _ _ _ Hw) in Hv. injection Hv as ->.
    eauto using dict_of_items_Some.
  - (* a mouse button that is no consumer key *)
    match goal with H : _ ∉ list_to_set ic.*1 |- _ =>
      rewrite elem_of_list_to_set, <- dict_of_items_None in H;
      rewrite (lookup_union_r _ _ _ H) in Hv end.
    match goal with H : _ ∈ list_to_set im.*1 |- _ =>
      apply elem_of_list_to_set, dict_of_items_is_Some in H as [w Hw] end.
    rewrite (lookup_union_Some_l _ _ _ _ Hw) in Hv. injection Hv as ->.
    eauto using dict_of_items_Some.
  - (* neither: the keyboard section decides *)
    match goal with H : _ ∉ list_to_set ic.*1 |- _ =>
      rewrite elem_of_list_to_set, <- dict_of_items_None in H;
      rewrite (lookup_union_r _ _ _ H) in Hv end.
    match goal with H : _ ∉ list_to_set im.*1 |- _ =>
      rewrite elem_of_list_to_set, <- dict_of_items_None in H;
      rewrite (lookup_union_r _ _ _ H) in Hv end.
    eauto using dict_of_items_Some.
Qed.

Lemma classified_mapped sc :
  loaded → sc ∈ _CONSUMER_KEYS g ∨ sc ∈ _MOUSE_BUTTONS g →
  is_Some (_EVDEV_TO_HID g !! sc).
Proof.
  intros (ik & im & ic & Hik & Him & Hic & Ht & Hc & Hm)%loaded_inv Hin.
  rewrite Ht, Hc, Hm in *. rewrite !lookup_union.
  destruct Hin as [Hin|Hin];
    apply elem_of_list_to_set, dict_of_items_is_Some in Hin as [w Hw];
    rewrite Hw.
  - by destruct (dict_of_items im !! sc), (dict_of_items ik !! sc).
  - by destruct (dict_of_items ic !! sc), (dict_of_items ik !! sc).
Qed.

Lemma prefix_append p s :
  String.prefix p s = true → ∃ rest, s = p +:+ rest.
Proof.
  revert s. induction p as [|a p IH]; intros s.
  - intros _. by exists s.
  - destruct s as [|b s]; simpl; [done|].
    destruct (Ascii.ascii_dec a b) as [->|]; [|done].
    intros [rest ->]%IH. by exists rest.
Qed.

Lemma getattr_int_lookup ns a z :
  getattr ns a PyNone = PyInt z → lookup_attr ns a = Some (PyInt z).
Proof. unfold getattr. destruct (lookup_attr ns a); [by intros ->|done]. Qed.

(** *** Checking the assumptions on an environment *)

Lemma lookup_attr_elem_of ns a v : lookup_attr ns a = Some v → (a, v) ∈ ns.
Proof.
  induction ns as [|[n w] ns IH]; simpl; [done|].
  case_decide as Hn.
  - intros [= ->]. subst. left.
  - intros H. right. by apply IH.
Qed.

Lemma no_None_attribute_check c :
  Forall (λ nv, nv.2 ≠ PyNone) (env c) → no_None_attribute c.
Proof.
  intros Hall a [v Hv]%dir_lookup_attr. unfold getattr. rewrite Hv.
  apply lookup_attr_elem_of in Hv. rewrite Forall_forall in Hall.
  exact (Hall _ Hv).
Qed.

Lemma NoDup_fmap_inj {A B} (f : A → B) (l : list A) a b :
  NoDup (f <$> l) → a ∈ l → b ∈ l → f a = f b → a = b.
Proof.
  induction l as [|x l IH]; simpl; [by intros _ ?%elem_of_nil|].
  intros [Hx Hnd]%NoDup_cons Ha Hb Hab.
  apply elem_of_cons in Ha as [->|Ha], Hb as [->|Hb]; [done| | |by apply IH].
  - destruct Hx. rewrite Hab. by apply list_elem_of_fmap_2.
  - destruct Hx. rewrite <- Hab. by apply list_elem_of_fmap_2.
Qed.

Lemma consumer_codes_distinct_check :
  NoDup (int_attr (env ecodes) <$> _CONSUMER_KEYS_literal) →
  consumer_codes_distinct.
Proof. intros Hnd a b. by apply NoDup_fmap_inj. Qed.

(** ** The properties of the specification *)

(** C2.  For every scan code that is a key of the mapping table,
    [evdev_to_hid] returns the table's value as usage id together with a
    usage name; the name is an attribute of the class the scan code
    classifies to, and its value there is the usage id. *)
Theorem evdev_to_hid_mapped (event : KeyEvent) (s : state) (v : Z) :
  loaded → reachable s →
  _EVDEV_TO_HID g !! scancode event = Some v →
  ∃ name, (evdev_to_hid event s).1 = (Some v, Some name) ∧
          name ∈ dir (env (get_hid_code_type event)) ∧
          getattr (env (get_hid_code_type event)) name PyNone = PyInt v.
Proof.
  intros Hload Hs%reachable_caches_ok Hv.
  destruct (evdev_to_hid_run event s Hs) as (s' & -> & _ & _).
  destruct (table_entry_class event v Hload Hv) as (n & a & _ & _ & Ha).
  destruct (usage_name_of_int_attr _ _ _ Ha) as (name & Hname & Hdir & Hval).
  exists name. simpl. by rewrite Hv, Hname.
Qed.

(** C3.  For every scan code that is no key of the mapping table,
    [evdev_to_hid] returns [(None, None)]: it is a total function, the
    miss is a result and the only trace of it is the debug record.  The
    usage name is looked up with [None] as the usage id in [Keycode], so
    the class must have no attribute whose value is [None]. *)
Theorem evdev_to_hid_unmapped (event : KeyEvent) (s : state) :
  loaded → no_None_attribute Keycode → reachable s →
  _EVDEV_TO_HID g !! scancode event = None →
  (evdev_to_hid event s).1 = (None, None) ∧
  log (evdev_to_hid event s).2 = log s ++ [Unsupported (scancode event)].
Proof.
  intros Hload Hno Hs%reachable_caches_ok Hv.
  destruct (evdev_to_hid_run event s Hs) as (s' & -> & _ & Hlog).
  assert (get_hid_code_type event = Keycode) as Hk.
  { unfold get_hid_code_type, is_consumer_key, is_mouse_button.
    repeat case_bool_decide; try done;
      (destruct (classified_mapped (scancode event) Hload) as [w Hw];
       [by auto|congruence]). }
  simpl. rewrite Hlog, Hv, Hk. unfold log_record_of. rewrite Hv.
  by rewrite usage_name_of_None.
Qed.

(** C9.  Every scan code of [_CONSUMER_KEYS] and of [_MOUSE_BUTTONS] is a
    key of [_EVDEV_TO_HID]; so a scan code for which [evdev_to_hid]
    returns no usage id classifies as [Keycode]. *)
Theorem classified_codes_are_mapped :
  loaded →
  (∀ sc, sc ∈ _CONSUMER_KEYS g ∨ sc ∈ _MOUSE_BUTTONS g →
         is_Some (_EVDEV_TO_HID g !! sc)) ∧
  (∀ event s, (evdev_to_hid event s).1.1 = None →
              get_hid_code_type event = Keycode).
Proof.
  intros Hload. split; [intros sc; by apply classified_mapped|].
  intros event s. rewrite evdev_to_hid_id. intros Hv.
  unfold get_hid_code_type, is_consumer_key, is_mouse_button.
  repeat case_bool_decide; try done;
    (destruct (classified_mapped (scancode event) Hload) as [w Hw];
     [by auto|congruence]).
Qed.

(** C4.  [get_hid_code_type] is total and returns one of [Keycode],
    [ConsumerControlCode] and [MouseButton]: [ConsumerControlCode] exactly
    for the scan codes of [_CONSUMER_KEYS], [MouseButton] exactly for
    those of [_MOUSE_BUTTONS] that are not in [_CONSUMER_KEYS], [Keycode]
    for all others; a scan code in both sets is a [ConsumerControlCode]. *)
Theorem get_hid_code_type_priority (event : KeyEvent) :
  get_hid_code_type event ≠ ecodes ∧
  (get_hid_code_type event = ConsumerControlCode ↔
     scancode event ∈ _CONSUMER_KEYS g) ∧
  (get_hid_code_type event = MouseButton ↔
     (scancode event ∉ _CONSUMER_KEYS g) ∧ scancode event ∈ _MOUSE_BUTTONS g) ∧
  (get_hid_code_type event = Keycode ↔
     (scancode event ∉ _CONSUMER_KEYS g) ∧ (scancode event ∉ _MOUSE_BUTTONS g)) ∧
  (scancode event ∈ _CONSUMER_KEYS g → scancode event ∈ _MOUSE_BUTTONS g →
     get_hid_code_type event = ConsumerControlCode).
Proof.
  unfold get_hid_code_type, is_consumer_key, is_mouse_button.
  repeat case_bool_decide; intuition congruence.
Qed.

(** C8.  [evdev_to_hid] reads nothing of an event but its scan code: two
    events with the same scan code, whatever their directions, give the
    same result (and leave the same state). *)
Theorem evdev_to_hid_ignores_direction (event1 event2 : KeyEvent) (s : state) :
  scancode event1 = scancode event2 →
  evdev_to_hid event1 s = evdev_to_hid event2 s.
Proof.
  destruct event1 as [sc1 d1], event2 as [sc2 d2]. simpl. intros ->.
  reflexivity.
Qed.

(** C10.  A name [find_key_name] returns starts with [KEY_] or [BTN_]
    and is an attribute of [ecodes] whose value is the scan code of the
    event. *)
Theorem find_key_name_sound (event : KeyEvent) (s : state) (name : string) :
  reachable s →
  (find_key_name event s).1 = Some name →
  (∃ rest, name = "KEY_" +:+ rest ∨ name = "BTN_" +:+ rest) ∧
  lookup_attr (env ecodes) name = Some (PyInt (scancode event)).
Proof.
  intros Hs%reachable_caches_ok.
  destruct (find_key_name_run event s Hs) as (s' & -> & _ & _). simpl.
  unfold key_name_of. intros [_ Hp]%find_some.
  apply andb_true_iff in Hp as [Heq Hpre]. split.
  - unfold startswith in Hpre. simpl in Hpre.
    rewrite orb_false_r in Hpre. apply orb_true_iff in Hpre as [H|H];
      apply prefix_append in H as [rest ->]; exists rest; auto.
  - by apply getattr_int_lookup, py_eq_int_true.
Qed.

(** C7.  The results of [evdev_to_hid], [find_key_name] and
    [find_usage_name] do not depend on the caches: in every state the
    module can reach they are the results of the cold state, and calling
    again right away gives the same result. *)
Theorem results_independent_of_caches
    (event : KeyEvent) (hid_usage_id : option Z) (s : state) :
  reachable s →
  ((evdev_to_hid event s).1 = (evdev_to_hid event cold).1 ∧
   (find_key_name event s).1 = (find_key_name event cold).1 ∧
   (find_usage_name event hid_usage_id s).1 =
     (find_usage_name event hid_usage_id cold).1) ∧
  ((evdev_to_hid event (evdev_to_hid event s).2).1 = (evdev_to_hid event s).1 ∧
   (find_key_name event (find_key_name event s).2).1 = (find_key_name event s).1 ∧
   (find_usage_name event hid_usage_id (find_usage_name event hid_usage_id s).2).1 =
     (find_usage_name event hid_usage_id s).1).
Proof.
  intros Hs%reachable_caches_ok. pose proof caches_ok_cold as Hc.
  destruct (evdev_to_hid_run event s Hs) as (s1 & -> & Hs1 & _).
  destruct (find_key_name_run event s Hs) as (s2 & -> & Hs2 & _).
  destruct (find_usage_name_run event hid_usage_id s Hs) as (s3 & -> & Hs3 & _).
  destruct (evdev_to_hid_run event cold Hc) as (? & -> & _ & _).
  destruct (find_key_name_run event cold Hc) as (? & -> & _ & _).
  destruct (find_usage_name_run event hid_usage_id cold Hc) as (? & -> & _ & _).
  simpl.
  destruct (evdev_to_hid_run event s1 Hs1) as (? & -> & _ & _).
  destruct (find_key_name_run event s2 Hs2) as (? & -> & _ & _).
  destruct (find_usage_name_run event hid_usage_id s3 Hs3) as (? & -> & _ & _).
  done.
Qed.

(** C5.  [get_mouse_movement] dispatches on the axis of the event: the
    value goes to the first field for [REL_X], to the second for [REL_Y],
    to the third for [REL_WHEEL], and every other axis gives
    [(0, 0, 0)]. *)
Theorem get_mouse_movement_dispatch (rel_x rel_y rel_wheel : Z) (rel_event : RelEvent) :
  int_attr (env ecodes) "REL_X" = Some rel_x →
  int_attr (env ecodes) "REL_Y" = Some rel_y →
  int_attr (env ecodes) "REL_WHEEL" = Some rel_wheel →
  rel_x ≠ rel_y → rel_x ≠ rel_wheel → rel_y ≠ rel_wheel →
  let c := code (event rel_event) in
  let v := value (event rel_event) in
  (c = rel_x → get_mouse_movement rel_event = Some (v, 0, 0)) ∧
  (c = rel_y → get_mouse_movement rel_event = Some (0, v, 0)) ∧
  (c = rel_wheel → get_mouse_movement rel_event = Some (0, 0, v)) ∧
  (c ≠ rel_x → c ≠ rel_y → c ≠ rel_wheel →
     get_mouse_movement rel_event = Some (0, 0, 0)).
Proof.
  unfold int_attr, get_mouse_movement. intros Hx Hy Hw Hxy Hxw Hyw.
  destruct (lookup_attr (env ecodes) "REL_X") as [[?| |]|]; try done.
  destruct (lookup_attr (env ecodes) "REL_Y") as [[?| |]|]; try done.
  destruct (lookup_attr (env ecodes) "REL_WHEEL") as [[?| |]|]; try done.
  injection Hx as ->. injection Hy as ->. injection Hw as ->.
  simpl. repeat case_bool_decide; intuition congruence.
Qed.

(** C6, as the code has it.  A motion sample has at most one non-zero
    field; it has exactly one when the axis is [REL_X], [REL_Y] or
    [REL_WHEEL] and the value of the event is not zero, and none
    otherwise. *)
Theorem get_mouse_movement_at_most_one (rel_x rel_y rel_wheel : Z) (rel_event : RelEvent) :
  int_attr (env ecodes) "REL_X" = Some rel_x →
  int_attr (env ecodes) "REL_Y" = Some rel_y →
  int_attr (env ecodes) "REL_WHEEL" = Some rel_wheel →
  let c := code (event rel_event) in
  let v := value (event rel_event) in
  ∃ m, get_mouse_movement rel_event = Some m ∧
       at_most_one_nonzero m ∧
       (exactly_one_nonzero m ↔
          (c = rel_x ∨ c = rel_y ∨ c = rel_wheel) ∧ v ≠ 0) ∧
       (m = (0, 0, 0) ↔
          ¬ (c = rel_x ∨ c = rel_y ∨ c = rel_wheel) ∨ v = 0).
Proof.
  unfold int_attr, get_mouse_movement. intros Hx Hy Hw.
  destruct (lookup_attr (env ecodes) "REL_X") as [[?| |]|]; try done.
  destruct (lookup_attr (env ecodes) "REL_Y") as [[?| |]|]; try done.
  destruct (lookup_attr (env ecodes) "REL_WHEEL") as [[?| |]|]; try done.
  injection Hx as ->. injection Hy as ->. injection Hw as ->.
  simpl. unfold at_most_one_nonzero, exactly_one_nonzero.
  repeat case_bool_decide; eexists; (split; [reflexivity|]);
    rewrite ?pair_equal_spec; lia.
Qed.

(** *** The two keys that the display lists twice *)

Lemma literal_power_pause_split :
  ∃ d1 d2 d3 d4 d5,
    _EVDEV_TO_HID_literal =
      d1 ++ ("KEY_PAUSE", (Keycode, "PAUSE")) :: d2 ++
      ("KEY_POWER", (Keycode, "POWER")) :: d3 ++
      ("KEY_POWER", (ConsumerControlCode, "POWER")) :: d4 ++
      ("KEY_PAUSE", (ConsumerControlCode, "PAUSE")) :: d5 ∧
    _EVDEV_TO_HID_without_keyboard_power_pause =
      d1 ++ d2 ++ d3 ++
      ("KEY_POWER", (ConsumerControlCode, "POWER")) :: d4 ++
      ("KEY_PAUSE", (ConsumerControlCode, "PAUSE")) :: d5.
Proof.
  exists (take 67 _EVDEV_TO_HID_literal),
         (take 29 (drop 68 _EVDEV_TO_HID_literal)),
         (take 25 (drop 98 _EVDEV_TO_HID_literal)),
         (take 49 (drop 124 _EVDEV_TO_HID_literal)),
         (drop 174 _EVDEV_TO_HID_literal).
  vm_compute. done.
Qed.

Lemma consumer_names_NoDup : NoDup _CONSUMER_KEYS_literal.
Proof. apply (bool_decide_unpack _). vm_compute. exact I. Qed.

Lemma power_pause_consumer_entries :
  ("KEY_POWER", (ConsumerControlCode, "POWER")) ∈ display_of ConsumerControlCode ∧
  ("KEY_PAUSE", (ConsumerControlCode, "PAUSE")) ∈ display_of ConsumerControlCode.
Proof. split; apply (bool_decide_unpack _); vm_compute; exact I. Qed.

Lemma resolved_NoDup {A} (f : A → option Z) names ks :
  Forall2 (λ n k, f n = Some k) names ks → NoDup names →
  (∀ a b, a ∈ names → b ∈ names → f a = f b → a = b) →
  NoDup ks.
Proof.
  induction 1 as [|n k names ks Hn Hrest IH]; intros Hnd Hinj.
  - constructor.
  - apply NoDup_cons in Hnd as [Hnotin Hnd]. constructor.
    + intros Hin. apply list_elem_of_lookup in Hin as [i Hi].
      destruct (Forall2_lookup_r _ _ _ _ _ Hrest Hi) as (n' & Hn' & Hfn').
      apply list_elem_of_lookup_2 in Hn'.
      assert (n = n') as -> by (apply Hinj; [left|by right|congruence]).
      done.
    + apply IH; [done|]. intros a b Ha Hb. apply Hinj; by right.
Qed.

Lemma consumer_items_NoDup ic :
  consumer_codes_distinct → resolves (display_of ConsumerControlCode) ic →
  NoDup ic.*1.
Proof.
  intros Hdist Hic%resolves_keys%mapM_Some. rewrite consumer_names in Hic.
  eapply resolved_NoDup; [apply Hic|apply consumer_names_NoDup|apply Hdist].
Qed.

Lemma loaded_table :
  loaded →
  ∃ items, resolves _EVDEV_TO_HID_literal items ∧
           _EVDEV_TO_HID g = dict_of_items items.
Proof.
  unfold loaded, load, build_table. intros H.
  apply bind_Some in H as (table & Ht & H).
  apply bind_Some in H as (consumer & _ & H).
  apply bind_Some in H as (mouse & _ & H).
  injection H as <-. cbn [_EVDEV_TO_HID].
  apply fmap_Some in Ht as (items & Hitems%resolves_mapM & ->). by exists items.
Qed.

Lemma without_keyboard_usages :
  Forall (λ it, it.2 ≠ (Keycode, "POWER") ∧ it.2 ≠ (Keycode, "PAUSE"))
         _EVDEV_TO_HID_without_keyboard_power_pause.
Proof. apply (bool_decide_unpack _). vm_compute. exact I. Qed.

(** A consumer entry decides the table at its scan code. *)
Lemma consumer_entry_wins n a :
  loaded → consumer_codes_distinct →
  (n, (ConsumerControlCode, a)) ∈ display_of ConsumerControlCode →
  ∃ k v, int_attr (env ecodes) n = Some k ∧
         int_attr (env ConsumerControlCode) a = Some v ∧
         k ∈ _CONSUMER_KEYS g ∧ _EVDEV_TO_HID g !! k = Some v.
Proof.
  intros (ik & im & ic & Hik & Him & Hic & Ht & Hc & Hm)%loaded_inv Hdist Hin.
  destruct (resolves_entry _ _ _ _ _ Hic Hin) as (k & v & Hkv & Hk & Hv).
  exists k, v. split; [done|]. split; [done|]. split.
  - rewrite Hc. apply elem_of_list_to_set.
    by apply (list_elem_of_fmap_2 fst) in Hkv.
  - rewrite Ht. apply lookup_union_Some_l.
    apply dict_of_items_NoDup; [by apply consumer_items_NoDup|done].
Qed.

(** C1.  The display of [_EVDEV_TO_HID] has two entries for [KEY_PAUSE]
    and two for [KEY_POWER], a keyboard entry followed by a consumer
    entry.  The consumer entry wins: at these two scan codes
    [evdev_to_hid] classifies the event as [ConsumerControlCode] and
    returns the consumer usage id.  No input reaches the keyboard entries:
    the table is the one the display denotes without them, and no other
    entry takes its value from [Keycode.POWER] or [Keycode.PAUSE]. *)
Theorem power_pause_overwritten :
  loaded → consumer_codes_distinct →
  (∃ d1 d2 d3 d4 d5,
     _EVDEV_TO_HID_literal =
       d1 ++ ("KEY_PAUSE", (Keycode, "PAUSE")) :: d2 ++
       ("KEY_POWER", (Keycode, "POWER")) :: d3 ++
       ("KEY_POWER", (ConsumerControlCode, "POWER")) :: d4 ++
       ("KEY_PAUSE", (ConsumerControlCode, "PAUSE")) :: d5) ∧
  (∃ power pause cc_power cc_pause,
     int_attr (env ecodes) "KEY_POWER" = Some power ∧
     int_attr (env ecodes) "KEY_PAUSE" = Some pause ∧
     int_attr (env ConsumerControlCode) "POWER" = Some cc_power ∧
     int_attr (env ConsumerControlCode) "PAUSE" = Some cc_pause ∧
     (∀ event s, scancode event = power →
        get_hid_code_type event = ConsumerControlCode ∧
        (evdev_to_hid event s).1.1 = Some cc_power) ∧
     (∀ event s, scancode event = pause →
        get_hid_code_type event = ConsumerControlCode ∧
        (evdev_to_hid event s).1.1 = Some cc_pause)) ∧
  build_table env _EVDEV_TO_HID_without_keyboard_power_pause = Some (_EVDEV_TO_HID g) ∧
  Forall (λ it, it.2 ≠ (Keycode, "POWER") ∧ it.2 ≠ (Keycode, "PAUSE"))
         _EVDEV_TO_HID_without_keyboard_power_pause.
Proof.
  intros Hload Hdist.
  destruct literal_power_pause_split as (d1 & d2 & d3 & d4 & d5 & Hsplit & Hwithout).
  destruct power_pause_consumer_entries as [Hpower Hpause].
  split; [by exists d1, d2, d3, d4, d5|].
  split; [|split; [|apply without_keyboard_usages]].
  - destruct (consumer_entry_wins _ _ Hload Hdist Hpower)
      as (power & cc_power & Hp1 & Hp2 & Hp3 & Hp4).
    destruct (consumer_entry_wins _ _ Hload Hdist Hpause)
      as (pause & cc_pause & Hq1 & Hq2 & Hq3 & Hq4).
    exists power, pause, cc_power, cc_pause. repeat (split; [done|]).
    split; intros event s Hsc; rewrite evdev_to_hid_id, Hsc;
      (split; [|done]);
      unfold get_hid_code_type, is_consumer_key; rewrite Hsc;
      by rewrite bool_decide_eq_true_2.
  - destruct (loaded_table Hload) as (items & Hitems & ->).
    unfold build_table. rewrite Hwithout. rewrite Hsplit in Hitems.
    apply Forall2_app_inv_l in Hitems as (i1 & r1 & H1 & Hr1 & ->).
    apply Forall2_cons_inv_l in Hr1 as ([k1 v1] & r2 & Hx1 & Hr2 & ->).
    apply Forall2_app_inv_l in Hr2 as (i2 & r3 & H2 & Hr3 & ->).
    apply Forall2_cons_inv_l in Hr3 as ([k2 v2] & i3 & Hx2 & H3 & ->).
    assert (∀ n c a k v, resolve_item env (n, (c, a)) = Some (k, v) →
              int_attr (env ecodes) n = Some k) as Hkey.
    { intros n c a k v. unfold resolve_item. simpl.
      destruct (int_attr (env ecodes) n); simpl; [|done].
      destruct (int_attr (env c) a); simpl; [|done]. congruence. }
    assert (∀ n c a k, int_attr (env ecodes) n = Some k →
              (n, (c, a)) ∈ d3 ++ ("KEY_POWER", (ConsumerControlCode, "POWER")) ::
                            d4 ++ ("KEY_PAUSE", (ConsumerControlCode, "PAUSE")) :: d5 →
              k ∈ i3.*1) as Hlater.
    { intros n c a k Hk Hin.
      destruct (resolves_entry _ _ _ _ _ H3 Hin) as (k' & v' & Hkv & Hk' & _).
      apply (list_elem_of_fmap_2 fst) in Hkv. simpl in Hkv. congruence. }
    assert (k1 ∈ i3.*1) as Hk1.
    { apply (Hlater "KEY_PAUSE" ConsumerControlCode "PAUSE").
      - exact (Hkey _ _ _ _ _ Hx1).
      - apply elem_of_app. right. right. apply elem_of_app. right. left. }
    assert (k2 ∈ i3.*1) as Hk2.
    { apply (Hlater "KEY_POWER" ConsumerControlCode "POWER").
      - exact (Hkey _ _ _ _ _ Hx2).
      - apply elem_of_app. right. left. }
    assert (resolves
              (d1 ++ d2 ++ d3 ++ ("KEY_POWER", (ConsumerControlCode, "POWER")) ::
               d4 ++ ("KEY_PAUSE", (ConsumerControlCode, "PAUSE")) :: d5)
              (i1 ++ i2 ++ i3)) as Hres.
    { apply Forall2_app; [done|]. by apply Forall2_app. }
    apply resolves_mapM in Hres. rewrite Hres. cbn [fmap option_fmap option_map].
    f_equal. rewrite dict_of_items_shadowed.
    + rewrite (assoc_L (++) i1 i2 ((k2, v2) :: i3)), dict_of_items_shadowed; [|done].
      by rewrite (assoc_L (++)).
    + rewrite fmap_app, fmap_cons. apply elem_of_app. right. by right.
Qed.

(** ** Further properties of the module *)

(** *** [lru_cache]: capacity, recency, repeated calls *)

Lemma cache_get_None_keys {K V} `{EqDecision K} (k : K) (c : list (K * V)) :
  cache_get k c = None → k ∉ c.*1.
Proof.
  induction c as [|[k' v] c IH]; simpl; [by intros _ ?%elem_of_nil|].
  case_decide as Hk; [done|]. intros Hget [->|Hin]%elem_of_cons; [done|].
  by apply IH.
Qed.

Lemma cache_del_keys {K V} `{EqDecision K} (k : K) (c : list (K * V)) :
  (cache_del k c).*1 = filter (λ k', k' ≠ k) c.*1.
Proof.
  unfold cache_del. induction c as [|[k' v] c IH]; [done|].
  rewrite fmap_cons. simpl. destruct (decide (k' ≠ k)) as [Hne|Heq].
  - rewrite !filter_cons_True by done. by rewrite fmap_cons, IH.
  - by rewrite !filter_cons_False by done.
Qed.


Lemma cache_del_not_elem {K V} `{EqDecision K} (k : K) (c : list (K * V)) :
  k ∉ (cache_del k c).*1.
Proof. rewrite cache_del_keys. by intros [? _]%list_elem_of_filter. Qed.

Lemma lru_call_bounded {K V} `{EqDecision K} n (f : K → V) k (c : list (K * V)) :
  (length c ≤ n)%nat → NoDup c.*1 →
  (length (lru_call n f k c).2 ≤ n)%nat ∧ NoDup (lru_call n f k c).2.*1.
Proof.
  intros Hlen Hnd. unfold lru_call.
  destruct (cache_get k c) as [v|] eqn:Hget; simpl.
  - split.
    + apply cache_get_elem_of in Hget.
      assert (length (cache_del k c) < length c)%nat as Hlt
        by (apply (length_filter_lt _ c (k, v) Hget); simpl; tauto).
      lia.
    + apply NoDup_cons. split; [apply cache_del_not_elem|].
      rewrite cache_del_keys. by apply NoDup_filter.
  - split.
    + rewrite length_take. lia.
    + rewrite fmap_take. eapply sublist_NoDup; [|apply sublist_take].
      rewrite fmap_cons. apply NoDup_cons. split; [|done].
      by apply cache_get_None_keys.
Qed.

(** Below its capacity the cache loses no key, and the key of the call is
    in it afterwards. *)
Lemma lru_call_keeps {K V} `{EqDecision K} n (f : K → V) k (c : list (K * V)) k' :
  (length c < n)%nat → k' = k ∨ k' ∈ c.*1 → k' ∈ (lru_call n f k c).2.*1.
Proof.
  intros Hlen Hin. unfold lru_call.
  destruct (cache_get k c) as [v|] eqn:Hget; simpl.
  - destruct (decide (k' = k)) as [->|Hne]; [left|]. right.
    destruct Hin as [?|Hin]; [done|].
    rewrite cache_del_keys. by apply list_elem_of_filter.
  - rewrite take_ge by (simpl; lia). rewrite fmap_cons.
    destruct Hin as [->|Hin]; [left|by right].
Qed.


Lemma class_types_bounded (l : list class_type) : NoDup l → (length l ≤ 4)%nat.
Proof.
  intros Hnd.
  apply (submseteq_length l [ecodes; Keycode; ConsumerControlCode; MouseButton]).
  apply NoDup_submseteq; [done|]. intros [] _; set_solver.
Qed.

(** *** What the functions keep *)

Section preserved.
(** A property of the state that the three primitive effects keep. *)
Variable P : state → Prop.
Hypothesis P_getattr : ∀ c a s, P s → P (_cached_getattr c a s).2.
Hypothesis P_dir : ∀ c s, P s → P (_cached_dir c s).2.
Hypothesis P_debug : ∀ r s, P s → P (debug r s).2.

Lemma find_key_name_loop_preserves sc attrs s :
  P s → P (find_key_name_loop sc attrs s).2.
Proof.
  revert s. induction attrs as [|a attrs IH]; intros s Hs; [done|].
  cbn [find_key_name_loop]. unfold bind at 1.
  pose proof (P_getattr ecodes a s Hs) as Hs1.
  destruct (_cached_getattr ecodes a s) as [v s1]. simpl in Hs1.
  destruct (py_eq _ _ && startswith _ _); [done|by apply IH].
Qed.

Lemma find_key_name_preserves ev s : P s → P (find_key_name ev s).2.
Proof.
  intros Hs. unfold find_key_name, bind.
  pose proof (P_dir ecodes s Hs) as Hs1.
  destruct (_cached_dir ecodes s) as [l s1]. by apply find_key_name_loop_preserves.
Qed.

Lemma find_usage_name_loop_preserves c id attrs s :
  P s → P (find_usage_name_loop c id attrs s).2.
Proof.
  revert s. induction attrs as [|a attrs IH]; intros s Hs; [done|].
  cbn [find_usage_name_loop]. unfold bind at 1.
  pose proof (P_getattr c a s Hs) as Hs1.
  destruct (_cached_getattr c a s) as [v s1]. simpl in Hs1.
  destruct (py_eq _ _); [done|by apply IH].
Qed.

Lemma find_usage_name_preserves ev id s : P s → P (find_usage_name ev id s).2.
Proof.
  intros Hs. unfold find_usage_name, bind.
  pose proof (P_dir (get_hid_code_type ev) s Hs) as Hs1.
  destruct (_cached_dir (get_hid_code_type ev) s) as [l s1].
  by apply find_usage_name_loop_preserves.
Qed.

Lemma evdev_to_hid_preserves ev s : P s → P (evdev_to_hid ev s).2.
Proof.
  intros Hs. unfold evdev_to_hid, bind.
  pose proof (find_key_name_preserves ev s Hs) as Hs1.
  destruct (find_key_name ev s) as [key_name s1]. simpl in Hs1.
  pose proof (find_usage_name_preserves ev (_EVDEV_TO_HID g !! scancode ev) s1 Hs1) as Hs2.
  destruct (find_usage_name ev _ s1) as [usage_name s2]. simpl in Hs2.
  destruct (_EVDEV_TO_HID g !! scancode ev) as [id|].
  - pose proof (P_debug (Converted (scancode ev) key_name id usage_name) s2 Hs2) as Hs3.
    by destruct (debug _ s2).
  - pose proof (P_debug (Unsupported (scancode ev)) s2 Hs2) as Hs3.
    by destruct (debug _ s2).
Qed.

Lemma reachable_preserves s : P cold → reachable s → P s.
Proof.
  intros Hc. induction 1;
    auto using find_key_name_preserves, find_usage_name_preserves,
               evdev_to_hid_preserves.
Qed.
End preserved.

Lemma cached_getattr_dir_cache c a s :
  dir_cache (_cached_getattr c a s).2 = dir_cache s ∧
  log (_cached_getattr c a s).2 = log s.
Proof. unfold _cached_getattr. by destruct (lru_call _ _ _ _). Qed.

Lemma cached_dir_getattr_cache c s :
  getattr_cache (_cached_dir c s).2 = getattr_cache s ∧
  log (_cached_dir c s).2 = log s.
Proof. unfold _cached_dir. by destruct (lru_call _ _ _ _). Qed.

Lemma caches_bounded_getattr c a s :
  caches_bounded s → caches_bounded (_cached_getattr c a s).2.
Proof.
  intros (Hg & Hd & Hng & Hnd). unfold _cached_getattr.
  pose proof (lru_call_bounded 512 (λ k, getattr (env k.1) k.2 PyNone) (c, a)
                (getattr_cache s) Hg Hng) as [Hlen Hnodup].
  destruct (lru_call _ _ _ _) as [v c']. by repeat split.
Qed.

Lemma caches_bounded_dir c s :
  caches_bounded s → caches_bounded (_cached_dir c s).2.
Proof.
  intros (Hg & Hd & Hng & Hnd). unfold _cached_dir.
  pose proof (lru_call_bounded 128 (λ k, dir (env k)) c (dir_cache s) Hd Hnd)
    as [Hlen Hnodup].
  destruct (lru_call _ _ _ _) as [v c']. by repeat split.
Qed.

Lemma caches_bounded_cold : caches_bounded cold.
Proof. repeat split; simpl; try lia; constructor. Qed.

Lemma reachable_caches_bounded s : reachable s → caches_bounded s.
Proof.
  apply reachable_preserves;
    auto using caches_bounded_getattr, caches_bounded_dir, caches_bounded_cold.
Qed.

(** Once enumerated, a class stays in the [dir] cache. *)
Lemma dir_cached_dir c c' s :
  caches_bounded s → c = c' ∨ c ∈ (dir_cache s).*1 →
  c ∈ (dir_cache (_cached_dir c' s).2).*1.
Proof.
  intros (_ & _ & _ & Hnd) Hin. unfold _cached_dir.
  pose proof (lru_call_keeps 128 (λ k, dir (env k)) c' (dir_cache s) c) as Hkeep.
  destruct (lru_call _ _ _ _) as [l cache]. simpl in *. apply Hkeep; [|done].
  apply class_types_bounded in Hnd. rewrite length_fmap in Hnd. lia.
Qed.

Lemma dir_cached_preserved c :
  let P := λ s, caches_bounded s ∧ c ∈ (dir_cache s).*1 in
  (∀ c' a s, P s → P (_cached_getattr c' a s).2) ∧
  (∀ c' s, P s → P (_cached_dir c' s).2) ∧
  (∀ r s, P s → P (debug r s).2).
Proof.
  split; [|split].
  - intros c' a s [Hb Hin]. split; [by apply caches_bounded_getattr|].
    by rewrite (proj1 (cached_getattr_dir_cache c' a s)).
  - intros c' s [Hb Hin]. split; [by apply caches_bounded_dir|].
    apply dir_cached_dir; auto.
  - by intros r s [Hb Hin].
Qed.

Lemma find_key_name_log ev s : log (find_key_name ev s).2 = log s.
Proof.
  apply (find_key_name_preserves (λ s', log s' = log s)); [| |done].
  - intros c a s' <-. apply cached_getattr_dir_cache.
  - intros c s' <-. apply cached_dir_getattr_cache.
Qed.

Lemma find_usage_name_log ev id s : log (find_usage_name ev id s).2 = log s.
Proof.
  apply (find_usage_name_preserves (λ s', log s' = log s)); [| |done].
  - intros c a s' <-. apply cached_getattr_dir_cache.
  - intros c s' <-. apply cached_dir_getattr_cache.
Qed.

Lemma find_first {A} (p : A → bool) (l : list A) x :
  List.find p l = Some x →
  ∃ i, l !! i = Some x ∧ p x = true ∧
       ∀ j y, (j < i)%nat → l !! j = Some y → p y = false.
Proof.
  induction l as [|a l IH]; simpl; [done|]. destruct (p a) eqn:Hp.
  - intros [= ->]. exists 0%nat. split; [done|]. split; [done|]. intros; lia.
  - intros (i & Hi & Hx & Hlt)%IH. exists (S i). split; [done|]. split; [done|].
    intros [|j] y Hj Hy; simpl in Hy.
    + by injection Hy as <-.
    + apply (Hlt j); [lia|done].
Qed.

Lemma py_eq_of_option v o : py_eq v (of_option o) = true ↔ v = of_option o.
Proof.
  destruct v as [x| |], o as [z|]; simpl; try (split; done).
  rewrite bool_decide_eq_true. split; congruence.
Qed.

Lemma py_eq_of_option_false v o : py_eq v (of_option o) = false ↔ v ≠ of_option o.
Proof. rewrite <- py_eq_of_option. by destruct (py_eq v (of_option o)). Qed.

Lemma unmapped_is_Keycode event :
  loaded → _EVDEV_TO_HID g !! scancode event = None →
  get_hid_code_type event = Keycode.
Proof.
  intros Hload Hv. unfold get_hid_code_type, is_consumer_key, is_mouse_button.
  repeat case_bool_decide; try done;
    (destruct (classified_mapped (scancode event) Hload) as [w Hw];
     [by auto|congruence]).
Qed.

(** Every key of the display is written with a [KEY_] or [BTN_] name. *)
Lemma literal_names_prefixed :
  Forall (λ it, startswith it.1 ["KEY_"; "BTN_"] = true) _EVDEV_TO_HID_literal.
Proof. apply (bool_decide_unpack _). vm_compute. exact I. Qed.

(** X1.  Each call of [evdev_to_hid] appends exactly one record to the
    debug log and keeps what was logged before: [Unsupported] for a scan
    code without usage id, otherwise [Converted] with the key name
    [find_key_name] gives and the usage id and usage name the call
    returns.  The two name resolvers log nothing. *)
Theorem evdev_to_hid_logs_once (event : KeyEvent) (s : state) :
  log (find_key_name event s).2 = log s ∧
  (∀ id, log (find_usage_name event id s).2 = log s) ∧
  log (evdev_to_hid event s).2 =
    log s ++ [match (evdev_to_hid event s).1.1 with
              | None => Unsupported (scancode event)
              | Some id => Converted (scancode event) (find_key_name event s).1 id
                             (evdev_to_hid event s).1.2
              end].
Proof.
  split; [apply find_key_name_log|]. split; [intros id; apply find_usage_name_log|].
  unfold evdev_to_hid, bind.
  pose proof (find_key_name_log event s) as Hl1.
  destruct (find_key_name event s) as [key_name s1]. simpl in Hl1.
  pose proof (find_usage_name_log event (_EVDEV_TO_HID g !! scancode event) s1) as Hl2.
  destruct (find_usage_name event _ s1) as [usage_name s2]. simpl in Hl2.
  destruct (_EVDEV_TO_HID g !! scancode event) as [id|]; simpl; congruence.
Qed.

(** X2.  [find_usage_name] returns the first attribute, in the order of
    [dir], of the class the event classifies to whose value is the usage
    id, and [None] exactly when the class has no such attribute. *)
Theorem find_usage_name_first_match
    (event : KeyEvent) (hid_usage_id : option Z) (s : state) :
  reachable s →
  let ns := env (get_hid_code_type event) in
  match (find_usage_name event hid_usage_id s).1 with
  | Some name =>
      ∃ i, dir ns !! i = Some name ∧
           getattr ns name PyNone = of_option hid_usage_id ∧
           ∀ j a, (j < i)%nat → dir ns !! j = Some a →
                  getattr ns a PyNone ≠ of_option hid_usage_id
  | None => ∀ a, a ∈ dir ns → getattr ns a PyNone ≠ of_option hid_usage_id
  end.
Proof.
  intros Hs%reachable_caches_ok.
  destruct (find_usage_name_run event hid_usage_id s Hs) as (s' & -> & _ & _).
  simpl. unfold usage_name_of.
  destruct (List.find _ _) as [name|] eqn:Hfind.
  - apply find_first in Hfind as (i & Hi & Hp & Hlt). exists i.
    split; [done|]. split; [by apply py_eq_of_option|].
    intros j a Hj Ha. apply py_eq_of_option_false. by apply (Hlt j).
  - intros a Ha%list_elem_of_In. apply py_eq_of_option_false.
    by apply (find_none _ _ Hfind).
Qed.

(** X3.  [find_key_name] returns the first attribute of [ecodes], in the
    order of [dir], that has the scan code as value and a name starting
    with [KEY_] or [BTN_]; it returns [None] exactly when no attribute
    has both. *)
Theorem find_key_name_first_match (event : KeyEvent) (s : state) :
  reachable s →
  let ns := env ecodes in
  let matches a := getattr ns a PyNone = PyInt (scancode event) ∧
                   startswith a ["KEY_"; "BTN_"] = true in
  match (find_key_name event s).1 with
  | Some name =>
      ∃ i, dir ns !! i = Some name ∧ matches name ∧
           ∀ j a, (j < i)%nat → dir ns !! j = Some a → ¬ matches a
  | None => ∀ a, a ∈ dir ns → ¬ matches a
  end.
Proof.
  intros Hs%reachable_caches_ok.
  destruct (find_key_name_run event s Hs) as (s' & -> & _ & _).
  simpl. unfold key_name_of.
  assert (∀ a, py_eq (getattr (env ecodes) a PyNone) (PyInt (scancode event))
               && startswith a ["KEY_"; "BTN_"] = false →
               ¬ (getattr (env ecodes) a PyNone = PyInt (scancode event) ∧
                  startswith a ["KEY_"; "BTN_"] = true)) as Hno.
  { intros a Hf [Hv Hp]. rewrite Hv, Hp in Hf. simpl in Hf.
    by rewrite bool_decide_eq_true_2 in Hf. }
  destruct (List.find _ _) as [name|] eqn:Hfind.
  - apply find_first in Hfind as (i & Hi & Hp & Hlt). exists i.
    split; [done|]. split.
    + apply andb_true_iff in Hp as [Hv Hp]. by apply py_eq_int_true in Hv.
    + intros j a Hj Ha. by apply Hno, (Hlt j).
  - intros a Ha%list_elem_of_In. by apply Hno, (find_none _ _ Hfind).
Qed.

(** X4.  In every state the module can reach the [getattr] cache holds
    at most 512 entries and the [dir] cache at most 4, one per class, and
    no cache holds a key twice. *)
Theorem caches_within_capacity (s : state) :
  reachable s →
  (length (getattr_cache s) ≤ 512)%nat ∧ (length (dir_cache s) ≤ 4)%nat ∧
  NoDup (getattr_cache s).*1 ∧ NoDup (dir_cache s).*1.
Proof.
  intros (Hg & _ & Hng & Hnd)%reachable_caches_bounded.
  split; [done|]. split; [|done].
  rewrite <- (length_fmap fst). by apply class_types_bounded.
Qed.


(** X6.  The [dir] cache never evicts: a class that is cached in a
    reachable state is still cached after any call of the module. *)
Theorem dir_cache_never_evicts
    (c c' : class_type) (event : KeyEvent) (id : option Z) (s : state) :
  reachable s → c ∈ (dir_cache s).*1 →
  c ∈ (dir_cache (_cached_dir c' s).2).*1 ∧
  c ∈ (dir_cache (find_key_name event s).2).*1 ∧
  c ∈ (dir_cache (find_usage_name event id s).2).*1 ∧
  c ∈ (dir_cache (evdev_to_hid event s).2).*1.
Proof.
  intros Hs%reachable_caches_bounded Hin.
  destruct (dir_cached_preserved c) as (Hg & Hd & Hdbg).
  split; [by apply Hd|]. split; [|split].
  - by apply (find_key_name_preserves _ Hg Hd).
  - by apply (find_usage_name_preserves _ Hg Hd).
  - by apply (evdev_to_hid_preserves _ Hg Hd Hdbg).
Qed.

(** X7.  After a translation the names of [ecodes] and of the class the
    event classifies to are in the [dir] cache. *)
Theorem evdev_to_hid_caches_dir (event : KeyEvent) (s : state) :
  reachable s →
  ecodes ∈ (dir_cache (evdev_to_hid event s).2).*1 ∧
  get_hid_code_type event ∈ (dir_cache (evdev_to_hid event s).2).*1.
Proof.
  intros Hs. pose proof (reachable_caches_bounded s Hs) as Hb.
  assert (reachable (find_key_name event s).2) as Hs1 by by constructor.
  pose proof (reachable_caches_bounded _ Hs1) as Hb1.
  destruct (dir_cached_preserved ecodes) as (Hg & Hd & Hdbg).
  destruct (dir_cached_preserved (get_hid_code_type event)) as (Hg' & Hd' & Hdbg').
  assert (ecodes ∈ (dir_cache (find_key_name event s).2).*1) as He.
  { unfold find_key_name, bind.
    pose proof (Hd ecodes s) as H1. pose proof (caches_bounded_dir ecodes s Hb) as H2.
    pose proof (dir_cached_dir ecodes ecodes s Hb (or_introl eq_refl)) as H3.
    destruct (_cached_dir ecodes s) as [l s0]. simpl in *.
    by apply (find_key_name_loop_preserves _ Hg). }
  unfold evdev_to_hid, bind.
  destruct (find_key_name event s) as [key_name s1]. simpl in *.
  set (id := _EVDEV_TO_HID g !! scancode event).
  pose proof (find_usage_name_preserves _ Hg Hd event id s1 (conj Hb1 He)) as [_ He2].
  assert (get_hid_code_type event ∈ (dir_cache (find_usage_name event id s1).2).*1) as Hc.
  { unfold find_usage_name, bind.
    pose proof (caches_bounded_dir (get_hid_code_type event) s1 Hb1) as H2.
    pose proof (dir_cached_dir _ (get_hid_code_type event) s1 Hb1 (or_introl eq_refl)) as H3.
    destruct (_cached_dir (get_hid_code_type event) s1) as [l s0]. simpl in *.
    by apply (find_usage_name_loop_preserves _ Hg'). }
  destruct (find_usage_name event id s1) as [usage_name s2]. simpl in *.
  by destruct id.
Qed.

(** X8.  The keys of the imported table are exactly the scan codes that
    the names on the left of the display denote. *)
Theorem table_domain (sc : Z) :
  loaded →
  (is_Some (_EVDEV_TO_HID g !! sc) ↔
   ∃ n c a, (n, (c, a)) ∈ _EVDEV_TO_HID_literal ∧ int_attr (env ecodes) n = Some sc).
Proof.
  intros (items & Hitems & ->)%loaded_table. split.
  - intros [v Hv%dict_of_items_Some].
    destruct (resolves_item_of _ _ _ _ Hitems Hv) as (n & c & a & Hin & Hk & _).
    by exists n, c, a.
  - intros (n & c & a & Hin & Hk).
    destruct (resolves_entry _ _ _ _ _ Hitems Hin) as (k & v & Hkv & Hk' & _).
    apply dict_of_items_is_Some. apply (list_elem_of_fmap_2 fst) in Hkv.
    simpl in Hkv. congruence.
Qed.

(** X9.  For every scan code of the table [find_key_name] finds a name:
    the key name in the [Converted] record is never [None]. *)
Theorem mapped_key_has_name (event : KeyEvent) (s : state) (v : Z) :
  loaded → reachable s →
  _EVDEV_TO_HID g !! scancode event = Some v →
  ∃ name, (find_key_name event s).1 = Some name.
Proof.
  intros Hload Hs%reachable_caches_ok Hv.
  destruct (find_key_name_run event s Hs) as (s' & -> & _ & _). simpl.
  destruct (table_entry_class event v Hload Hv) as (n & a & Hin & Hn & _).
  pose proof literal_names_prefixed as Hpre. rewrite Forall_forall in Hpre.
  specialize (Hpre _ Hin). cbn [fst] in Hpre.
  apply (int_attr_getattr _ _ _ PyNone) in Hn as [Hdir Hget].
  unfold key_name_of. destruct (List.find _ _) as [name|] eqn:Hfind; [by eexists|].
  apply list_elem_of_In in Hdir. apply (find_none _ _ Hfind) in Hdir.
  cbn beta in Hdir. rewrite Hget, Hpre in Hdir. simpl in Hdir.
  by rewrite bool_decide_eq_true_2 in Hdir.
Qed.

(** X10.  For a scan code that is no key of the table the usage name
    [evdev_to_hid] returns is [None] exactly when [Keycode] has no
    attribute whose value is [None]; otherwise it is the first such
    attribute. *)
Theorem unmapped_name_None_iff (event : KeyEvent) (s : state) :
  loaded → reachable s →
  _EVDEV_TO_HID g !! scancode event = None →
  ((evdev_to_hid event s).1.2 = None ↔ no_None_attribute Keycode) ∧
  (evdev_to_hid event s).1.2 = (find_usage_name event None s).1.
Proof.
  intros Hload Hs%reachable_caches_ok Hv.
  destruct (evdev_to_hid_run event s Hs) as (s' & -> & _ & _).
  destruct (find_usage_name_run event None s Hs) as (s'' & -> & _ & _).
  simpl. rewrite Hv, (unmapped_is_Keycode event Hload Hv). split; [|done]. split.
  - intros Hnone a Ha%list_elem_of_In Hget. unfold usage_name_of in Hnone.
    apply (find_none _ _ Hnone) in Ha. simpl in Ha. by rewrite Hget in Ha.
  - apply usage_name_of_None.
Qed.

(** *** The table returns what the display says *)

Lemma display_of_subseteq c : display_of c ⊆ _EVDEV_TO_HID_literal.
Proof. unfold display_of. intros it. by intros [_ ?]%list_elem_of_filter. Qed.

Lemma display_of_names c n :
  n ∈ (display_of c).*1 → n ∈ _EVDEV_TO_HID_literal.*1.
Proof.
  intros [it [-> Hin]]%list_elem_of_fmap.
  apply list_elem_of_fmap_2. by apply (display_of_subseteq c).
Qed.

Lemma display_of_elem_of n c a :
  (n, (c, a)) ∈ _EVDEV_TO_HID_literal → (n, (c, a)) ∈ display_of c.
Proof. intros Hin. unfold display_of. by apply list_elem_of_filter. Qed.

(** The key names of each section are pairwise different, and apart from
    the keyboard entries for [KEY_PAUSE] and [KEY_POWER] no name of one
    section occurs in another. *)
Lemma section_names :
  NoDup (display_of Keycode).*1 ∧ NoDup (display_of MouseButton).*1 ∧
  Forall (λ n, n ∉ (display_of ConsumerControlCode).*1) (display_of MouseButton).*1 ∧
  Forall (λ it, it.2.1 = Keycode →
                (it.1 ∉ (display_of ConsumerControlCode).*1) ∧
                (it.1 ∉ (display_of MouseButton).*1))
         _EVDEV_TO_HID_without_keyboard_power_pause ∧
  _EVDEV_TO_HID_without_keyboard_power_pause ⊆ _EVDEV_TO_HID_literal.
Proof.
  split; [|split; [|split; [|split]]];
    apply (bool_decide_unpack _); vm_compute; exact I.
Qed.

(** Under [display_codes_distinct] a scan code occurs among the items of
    a section only under its own name. *)
Lemma section_items_name c items n k :
  display_codes_distinct → resolves (display_of c) items →
  n ∈ _EVDEV_TO_HID_literal.*1 → int_attr (env ecodes) n = Some k →
  k ∈ items.*1 → n ∈ (display_of c).*1.
Proof.
  intros Hdist Hres Hn Hk [[k' v] [-> Hin]]%list_elem_of_fmap. simpl in *.
  destruct (resolves_item_of _ _ _ _ Hres Hin) as (n' & c' & a' & Hd & Hk' & _).
  assert (n' = n) as <-.
  { apply Hdist; [|done|congruence].
    apply (list_elem_of_fmap_2 fst) in Hd. by apply (display_of_names c). }
  by apply (list_elem_of_fmap_2 fst) in Hd.
Qed.

Lemma section_items_NoDup c items :
  display_codes_distinct → resolves (display_of c) items →
  NoDup (display_of c).*1 → NoDup items.*1.
Proof.
  intros Hdist Hres%resolves_keys%mapM_Some Hnd.
  eapply resolved_NoDup; [apply Hres|done|].
  intros a b Ha Hb. apply Hdist; by apply (display_of_names c).
Qed.

(** X11.  When no two key names of the display denote the same scan
    code, the table returns for every entry of the display, the keyboard
    entries for [KEY_PAUSE] and [KEY_POWER] apart, the value the entry
    names. *)
Theorem display_round_trip (n : string) (c : class_type) (a : string) :
  loaded → display_codes_distinct →
  (n, (c, a)) ∈ _EVDEV_TO_HID_without_keyboard_power_pause →
  ∃ k v, int_attr (env ecodes) n = Some k ∧ int_attr (env c) a = Some v ∧
         _EVDEV_TO_HID g !! k = Some v.
Proof.
  intros Hload Hdist Hin.
  destruct section_names as (Hnk & Hnm & Hmc & Hkb & Hsub).
  pose proof (Hsub _ Hin) as Hlit.
  pose proof (display_of_elem_of _ _ _ Hlit) as Hsec.
  assert (n ∈ _EVDEV_TO_HID_literal.*1) as Hn
    by (by apply (list_elem_of_fmap_2 fst) in Hlit).
  destruct (loaded_inv Hload) as (ik & im & ic & Hik & Him & Hic & Ht & _ & _).
  assert (∀ c' items, resolves (display_of c') items →
            n ∉ (display_of c').*1 → ∀ k, int_attr (env ecodes) n = Some k →
            dict_of_items items !! k = None) as Habsent.
  { intros c' items Hres Hnot k Hk. apply dict_of_items_None. intros Hkin.
    apply Hnot. by eapply section_items_name. }
  destruct c.
  - rewrite display_of_ecodes in Hsec. by apply elem_of_nil in Hsec.
  - (* a keyboard entry *)
    destruct (resolves_entry _ _ _ _ _ Hik Hsec) as (k & v & Hkv & Hk & Hv).
    exists k, v. split; [done|]. split; [done|].
    rewrite Forall_forall in Hkb. destruct (Hkb _ Hin eq_refl) as [Hnc Hnmb].
    rewrite Ht, lookup_union_r, lookup_union_r by eauto.
    apply dict_of_items_NoDup; [by apply (section_items_NoDup Keycode)|done].
  - (* a consumer entry *)
    destruct (resolves_entry _ _ _ _ _ Hic Hsec) as (k & v & Hkv & Hk & Hv).
    exists k, v. split; [done|]. split; [done|].
    rewrite Ht. apply lookup_union_Some_l. apply dict_of_items_NoDup; [|done].
    apply consumer_items_NoDup; [|done].
    intros x y Hx Hy. rewrite <- consumer_names in Hx, Hy.
    apply Hdist; by apply (display_of_names ConsumerControlCode).
  - (* a mouse entry *)
    destruct (resolves_entry _ _ _ _ _ Him Hsec) as (k & v & Hkv & Hk & Hv).
    exists k, v. split; [done|]. split; [done|].
    rewrite Forall_forall in Hmc.
    assert (n ∉ (display_of ConsumerControlCode).*1) as Hnc
      by (apply Hmc; by apply (list_elem_of_fmap_2 fst) in Hsec).
    rewrite Ht, lookup_union_r by eauto. apply lookup_union_Some_l.
    apply dict_of_items_NoDup; [by apply (section_items_NoDup MouseButton)|done].
Qed.

(** X12.  [get_mouse_movement] raises only for a name that [ecodes]
    lacks, and reads the names as it needs them: without [REL_X] every
    call raises, while an event on the [REL_X] axis is decoded whether or
    not [REL_Y] and [REL_WHEEL] exist. *)
Theorem get_mouse_movement_raises (rel_event : RelEvent) :
  (get_mouse_movement rel_event = None →
     lookup_attr (env ecodes) "REL_X" = None ∨
     lookup_attr (env ecodes) "REL_Y" = None ∨
     lookup_attr (env ecodes) "REL_WHEEL" = None) ∧
  (lookup_attr (env ecodes) "REL_X" = None → get_mouse_movement rel_event = None) ∧
  (lookup_attr (env ecodes) "REL_X" = Some (PyInt (code (event rel_event))) →
     get_mouse_movement rel_event = Some (value (event rel_event), 0, 0)).
Proof.
  unfold get_mouse_movement.
  destruct (lookup_attr (env ecodes) "REL_X") as [x|]; simpl;
    [|split; [by left|by split]].
  split; [|split; [done|]].
  - destruct (match x with PyInt _ => _ | _ => _ end); [done|].
    destruct (lookup_attr (env ecodes) "REL_Y") as [y|]; simpl; [|by auto].
    destruct (match y with PyInt _ => _ | _ => _ end); [done|].
    destruct (lookup_attr (env ecodes) "REL_WHEEL") as [w|]; simpl; [|by auto].
    by destruct (match w with PyInt _ => _ | _ => _ end).
  - intros [= ->]. by rewrite bool_decide_eq_true_2.
Qed.

Lemma display_codes_distinct_check :
  NoDup (int_attr (env ecodes) <$> _EVDEV_TO_HID_without_keyboard_power_pause.*1) →
  display_codes_distinct.
Proof.
  assert (Forall (λ n, n ∈ _EVDEV_TO_HID_without_keyboard_power_pause.*1)
                 _EVDEV_TO_HID_literal.*1) as Hsame
    by (apply (bool_decide_unpack _); vm_compute; exact I).
  rewrite Forall_forall in Hsame.
  intros Hnd a b Ha Hb. apply (NoDup_fmap_inj _ _ _ _ Hnd); by apply Hsame.
Qed.

End Adapter.

(** ** The reference environment meets the assumptions *)

Lemma ref_loaded : loaded ref_env ref_g.
Proof. vm_compute. reflexivity. Qed.

Lemma ref_consumer_codes_distinct : consumer_codes_distinct ref_env.
Proof.
  apply consumer_codes_distinct_check.
  apply (bool_decide_unpack _). vm_compute. exact I.
Qed.

Lemma ref_Keycode_no_None : no_None_attribute ref_env Keycode.
Proof.
  apply no_None_attribute_check.
  apply (bool_decide_unpack _). vm_compute. exact I.
Qed.

(** ** The theorems at concrete inputs *)

(** [KEY_POWER] is scan code 116 and [KEY_PAUSE] is 119; 48 and 177 are the
    consumer usage ids [POWER] and [PAUSE]. *)
Lemma power_pause_overwritten_witness :
  loaded ref_env ref_g ∧ consumer_codes_distinct ref_env ∧
  (evdev_to_hid ref_env ref_g {| scancode := 116; keystate := key_down |} cold).1.1
    = Some 48 ∧
  (evdev_to_hid ref_env ref_g {| scancode := 119; keystate := key_up |} cold).1.1
    = Some 177 ∧
  build_table ref_env _EVDEV_TO_HID_without_keyboard_power_pause
    = Some (_EVDEV_TO_HID ref_g).
Proof.
  split; [exact ref_loaded|]. split; [exact ref_consumer_codes_distinct|].
  destruct (power_pause_overwritten ref_env ref_g ref_loaded ref_consumer_codes_distinct)
    as (_ & (power & pause & cc_power & cc_pause & H1 & H2 & H3 & H4 & Hp & Hq) & Hw & _).
  vm_compute in H1, H2, H3, H4.
  injection H1 as <-. injection H2 as <-. injection H3 as <-. injection H4 as <-.
  split; [by apply Hp|]. split; [by apply Hq|]. exact Hw.
Defined.

(** [KEY_A] is scan code 30 and maps to the keyboard usage 4. *)
Lemma evdev_to_hid_mapped_witness :
  loaded ref_env ref_g ∧ reachable ref_env ref_g cold ∧
  _EVDEV_TO_HID ref_g !! 30 = Some 4 ∧
  ∃ name,
    (evdev_to_hid ref_env ref_g {| scancode := 30; keystate := key_down |} cold).1
      = (Some 4, Some name) ∧
    name ∈ dir (ref_env (get_hid_code_type ref_g
                           {| scancode := 30; keystate := key_down |})) ∧
    getattr (ref_env (get_hid_code_type ref_g
                        {| scancode := 30; keystate := key_down |}))
      name PyNone = PyInt 4.
Proof.
  assert (_EVDEV_TO_HID ref_g !! 30 = Some 4) as Hv by (vm_compute; reflexivity).
  split; [exact ref_loaded|]. split; [constructor|]. split; [exact Hv|].
  exact (evdev_to_hid_mapped ref_env ref_g {| scancode := 30; keystate := key_down |}
           cold 4 ref_loaded (reach_cold _ _) Hv).
Defined.

(** [KEY_FN] (scan code 464) is no key of the table. *)
Lemma evdev_to_hid_unmapped_witness :
  loaded ref_env ref_g ∧ no_None_attribute ref_env Keycode ∧
  reachable ref_env ref_g cold ∧ _EVDEV_TO_HID ref_g !! 464 = None ∧
  (evdev_to_hid ref_env ref_g {| scancode := 464; keystate := key_down |} cold).1
    = (None, None) ∧
  log (evdev_to_hid ref_env ref_g {| scancode := 464; keystate := key_down |} cold).2
    = [Unsupported 464].
Proof.
  assert (_EVDEV_TO_HID ref_g !! 464 = None) as Hv by (vm_compute; reflexivity).
  split; [exact ref_loaded|]. split; [exact ref_Keycode_no_None|].
  split; [constructor|]. split; [exact Hv|].
  exact (evdev_to_hid_unmapped ref_env ref_g {| scancode := 464; keystate := key_down |}
           cold ref_loaded ref_Keycode_no_None (reach_cold _ _) Hv).
Defined.

(** A scan code in both sets is a consumer key. *)
Lemma get_hid_code_type_priority_witness :
  get_hid_code_type (Globals ∅ {[ 272 ]} {[ 272 ]})
    {| scancode := 272; keystate := key_down |} = ConsumerControlCode.
Proof.
  apply (get_hid_code_type_priority (Globals ∅ {[ 272 ]} {[ 272 ]})
           {| scancode := 272; keystate := key_down |});
    apply (bool_decide_unpack _); vm_compute; exact I.
Defined.

(** [REL_X], [REL_Y] and [REL_WHEEL] are the axes 0, 1 and 8; axis 6 is
    [REL_HWHEEL]. *)
Lemma get_mouse_movement_dispatch_witness :
  get_mouse_movement ref_env {| event := {| type := 2; code := 0; value := -5 |} |}
    = Some (-5, 0, 0) ∧
  get_mouse_movement ref_env {| event := {| type := 2; code := 1; value := 3 |} |}
    = Some (0, 3, 0) ∧
  get_mouse_movement ref_env {| event := {| type := 2; code := 8; value := 1 |} |}
    = Some (0, 0, 1) ∧
  get_mouse_movement ref_env {| event := {| type := 2; code := 6; value := 7 |} |}
    = Some (0, 0, 0).
Proof.
  assert (int_attr (ref_env ecodes) "REL_X" = Some 0) as Hx by (vm_compute; reflexivity).
  assert (int_attr (ref_env ecodes) "REL_Y" = Some 1) as Hy by (vm_compute; reflexivity).
  assert (int_attr (ref_env ecodes) "REL_WHEEL" = Some 8) as Hw by (vm_compute; reflexivity).
  pose proof (λ ev, get_mouse_movement_dispatch ref_env 0 1 8 ev Hx Hy Hw
                      ltac:(lia) ltac:(lia) ltac:(lia)) as H.
  split; [by apply (H {| event := {| type := 2; code := 0; value := -5 |} |})|].
  split; [by apply (H {| event := {| type := 2; code := 1; value := 3 |} |})|].
  split; [by apply (H {| event := {| type := 2; code := 8; value := 1 |} |})|].
  by apply (H {| event := {| type := 2; code := 6; value := 7 |} |}).
Defined.

(** C6 fails as stated: a [REL_WHEEL_HI_RES] event (axis 11), which the
    kernel sends along with every wheel step, decodes to a sample with no
    non-zero field. *)
Lemma hi_res_wheel_sample_all_zero :
  get_mouse_movement ref_env {| event := {| type := 2; code := 11; value := 120 |} |}
    = Some (0, 0, 0) ∧
  ¬ exactly_one_nonzero (0, 0, 0).
Proof. split; [vm_compute; reflexivity|]. unfold exactly_one_nonzero. lia. Qed.

Lemma get_mouse_movement_at_most_one_witness :
  int_attr (ref_env ecodes) "REL_X" = Some 0 ∧
  int_attr (ref_env ecodes) "REL_Y" = Some 1 ∧
  int_attr (ref_env ecodes) "REL_WHEEL" = Some 8 ∧
  ∃ m, get_mouse_movement ref_env
         {| event := {| type := 2; code := 8; value := -1 |} |} = Some m ∧
       at_most_one_nonzero m ∧
       (exactly_one_nonzero m ↔ (8 = 0 ∨ 8 = 1 ∨ 8 = 8) ∧ -1 ≠ 0) ∧
       (m = (0, 0, 0) ↔ ¬ (8 = 0 ∨ 8 = 1 ∨ 8 = 8) ∨ -1 = 0).
Proof.
  assert (int_attr (ref_env ecodes) "REL_X" = Some 0) as Hx by (vm_compute; reflexivity).
  assert (int_attr (ref_env ecodes) "REL_Y" = Some 1) as Hy by (vm_compute; reflexivity).
  assert (int_attr (ref_env ecodes) "REL_WHEEL" = Some 8) as Hw by (vm_compute; reflexivity).
  split; [exact Hx|]. split; [exact Hy|]. split; [exact Hw|].
  exact (get_mouse_movement_at_most_one ref_env 0 1 8
           {| event := {| type := 2; code := 8; value := -1 |} |} Hx Hy Hw).
Defined.

(** A warm state: the one a translation of [BTN_LEFT] leaves behind. *)
Lemma results_independent_of_caches_witness :
  let warm := (evdev_to_hid ref_env ref_g {| scancode := 272; keystate := key_down |} cold).2 in
  let event := {| scancode := 30; keystate := key_down |} in
  reachable ref_env ref_g warm ∧
  (evdev_to_hid ref_env ref_g event warm).1 = (evdev_to_hid ref_env ref_g event cold).1 ∧
  (find_key_name ref_env event warm).1 = (find_key_name ref_env event cold).1 ∧
  (find_usage_name ref_env ref_g event (Some 4) warm).1
    = (find_usage_name ref_env ref_g event (Some 4) cold).1.
Proof.
  intros warm event.
  assert (reachable ref_env ref_g warm) as Hr by (apply reach_evdev_to_hid; constructor).
  split; [exact Hr|].
  exact (proj1 (results_independent_of_caches ref_env ref_g event (Some 4) warm Hr)).
Defined.

Lemma evdev_to_hid_ignores_direction_witness :
  evdev_to_hid ref_env ref_g {| scancode := 30; keystate := key_down |} cold
    = evdev_to_hid ref_env ref_g {| scancode := 30; keystate := key_up |} cold.
Proof.
  exact (evdev_to_hid_ignores_direction ref_env ref_g
           {| scancode := 30; keystate := key_down |}
           {| scancode := 30; keystate := key_up |} cold eq_refl).
Defined.

(** [BTN_LEFT] (scan code 272) is a mouse button and a key of the table. *)
Lemma classified_codes_are_mapped_witness :
  loaded ref_env ref_g ∧ 272 ∈ _MOUSE_BUTTONS ref_g ∧
  is_Some (_EVDEV_TO_HID ref_g !! 272).
Proof.
  assert (272 ∈ _MOUSE_BUTTONS ref_g) as Hm
    by (apply (bool_decide_unpack _); vm_compute; exact I).
  split; [exact ref_loaded|]. split; [exact Hm|].
  exact (proj1 (classified_codes_are_mapped ref_env ref_g ref_loaded) 272 (or_intror Hm)).
Defined.

(** Scan code 256 has the names [BTN_0] and [BTN_MISC]; [dir] lists
    [BTN_0] first. *)
Lemma find_key_name_sound_witness :
  let event := {| scancode := 256; keystate := key_down |} in
  reachable ref_env ref_g cold ∧
  (find_key_name ref_env event cold).1 = Some "BTN_0" ∧
  (∃ rest, "BTN_0" = "KEY_" +:+ rest ∨ "BTN_0" = "BTN_" +:+ rest) ∧
  lookup_attr (ref_env ecodes) "BTN_0" = Some (PyInt 256).
Proof.
  intros event.
  assert ((find_key_name ref_env event cold).1 = Some "BTN_0") as Hn
    by (vm_compute; reflexivity).
  split; [constructor|]. split; [exact Hn|].
  exact (find_key_name_sound ref_env ref_g event cold "BTN_0" (reach_cold _ _) Hn).
Defined.

(** Why [evdev_to_hid_unmapped] assumes [no_None_attribute Keycode]: the
    usage name of an unmapped key is looked up with [None] as usage id, and
    in a class without docstring [__doc__] has that value. *)
Lemma unmapped_name_in_docless_Keycode :
  let g := default (Globals ∅ ∅ ∅) (load ref_env_docless) in
  loaded ref_env_docless g ∧
  (evdev_to_hid ref_env_docless g {| scancode := 464; keystate := key_down |} cold).1
    = (None, Some "__doc__").
Proof. split; vm_compute; reflexivity. Qed.

(** ** Properties of the import *)


(** ** The further properties at concrete inputs *)

Lemma ref_display_codes_distinct : display_codes_distinct ref_env.
Proof.
  apply display_codes_distinct_check.
  apply (bool_decide_unpack _). vm_compute. exact I.
Qed.

Lemma find_usage_name_first_match_witness :
  reachable ref_env ref_g cold ∧
  let ns := ref_env (get_hid_code_type ref_g {| scancode := 30; keystate := key_down |}) in
  match (find_usage_name ref_env ref_g {| scancode := 30; keystate := key_down |}
           (Some 4) cold).1 with
  | Some name =>
      ∃ i, dir ns !! i = Some name ∧
           getattr ns name PyNone = of_option (Some 4) ∧
           ∀ j a, (j < i)%nat → dir ns !! j = Some a →
                  getattr ns a PyNone ≠ of_option (Some 4)
  | None => ∀ a, a ∈ dir ns → getattr ns a PyNone ≠ of_option (Some 4)
  end.
Proof.
  split; [constructor|].
  exact (find_usage_name_first_match ref_env ref_g
           {| scancode := 30; keystate := key_down |} (Some 4) cold (reach_cold _ _)).
Defined.

Lemma find_key_name_first_match_witness :
  reachable ref_env ref_g cold ∧
  let ns := ref_env ecodes in
  let matches a := getattr ns a PyNone = PyInt 256 ∧
                   startswith a ["KEY_"; "BTN_"] = true in
  match (find_key_name ref_env {| scancode := 256; keystate := key_down |} cold).1 with
  | Some name =>
      ∃ i, dir ns !! i = Some name ∧ matches name ∧
           ∀ j a, (j < i)%nat → dir ns !! j = Some a → ¬ matches a
  | None => ∀ a, a ∈ dir ns → ¬ matches a
  end.
Proof.
  split; [constructor|].
  exact (find_key_name_first_match ref_env ref_g
           {| scancode := 256; keystate := key_down |} cold (reach_cold _ _)).
Defined.

Lemma caches_within_capacity_witness :
  let s := (evdev_to_hid ref_env ref_g {| scancode := 464; keystate := key_down |} cold).2 in
  reachable ref_env ref_g s ∧
  (length (getattr_cache s) ≤ 512)%nat ∧ (length (dir_cache s) ≤ 4)%nat ∧
  NoDup (getattr_cache s).*1 ∧ NoDup (dir_cache s).*1.
Proof.
  intros s.
  assert (reachable ref_env ref_g s) as Hr by (apply reach_evdev_to_hid; constructor).
  split; [exact Hr|]. exact (caches_within_capacity ref_env ref_g s Hr).
Defined.

Lemma dir_cache_never_evicts_witness :
  let s := (_cached_dir ref_env ecodes cold).2 in
  let event := {| scancode := 272; keystate := key_down |} in
  reachable ref_env ref_g s ∧ ecodes ∈ (dir_cache s).*1 ∧
  ecodes ∈ (dir_cache (evdev_to_hid ref_env ref_g event s).2).*1.
Proof.
  intros s event.
  assert (reachable ref_env ref_g s) as Hr by (apply reach_cached_dir; constructor).
  assert (ecodes ∈ (dir_cache s).*1) as Hin by (vm_compute; left).
  split; [exact Hr|]. split; [exact Hin|].
  exact (proj2 (proj2 (proj2
           (dir_cache_never_evicts ref_env ref_g ecodes Keycode event None s Hr Hin)))).
Defined.

Lemma evdev_to_hid_caches_dir_witness :
  let event := {| scancode := 272; keystate := key_down |} in
  reachable ref_env ref_g cold ∧
  ecodes ∈ (dir_cache (evdev_to_hid ref_env ref_g event cold).2).*1 ∧
  get_hid_code_type ref_g event ∈ (dir_cache (evdev_to_hid ref_env ref_g event cold).2).*1.
Proof.
  intros event. split; [constructor|].
  exact (evdev_to_hid_caches_dir ref_env ref_g event cold (reach_cold _ _)).
Defined.

Lemma table_domain_witness :
  loaded ref_env ref_g ∧
  (is_Some (_EVDEV_TO_HID ref_g !! 30) ↔
   ∃ n c a, (n, (c, a)) ∈ _EVDEV_TO_HID_literal ∧
            int_attr (ref_env ecodes) n = Some 30).
Proof. split; [exact ref_loaded|]. exact (table_domain ref_env ref_g 30 ref_loaded). Defined.

Lemma mapped_key_has_name_witness :
  loaded ref_env ref_g ∧ reachable ref_env ref_g cold ∧
  _EVDEV_TO_HID ref_g !! 30 = Some 4 ∧
  ∃ name, (find_key_name ref_env {| scancode := 30; keystate := key_down |} cold).1
            = Some name.
Proof.
  assert (_EVDEV_TO_HID ref_g !! 30 = Some 4) as Hv by (vm_compute; reflexivity).
  split; [exact ref_loaded|]. split; [constructor|]. split; [exact Hv|].
  exact (mapped_key_has_name ref_env ref_g {| scancode := 30; keystate := key_down |}
           cold 4 ref_loaded (reach_cold _ _) Hv).
Defined.

Lemma unmapped_name_None_iff_witness :
  let event := {| scancode := 464; keystate := key_down |} in
  loaded ref_env ref_g ∧ reachable ref_env ref_g cold ∧
  _EVDEV_TO_HID ref_g !! 464 = None ∧
  ((evdev_to_hid ref_env ref_g event cold).1.2 = None ↔
     no_None_attribute ref_env Keycode) ∧
  (evdev_to_hid ref_env ref_g event cold).1.2
    = (find_usage_name ref_env ref_g event None cold).1.
Proof.
  intros event.
  assert (_EVDEV_TO_HID ref_g !! 464 = None) as Hv by (vm_compute; reflexivity).
  split; [exact ref_loaded|]. split; [constructor|]. split; [exact Hv|].
  exact (unmapped_name_None_iff ref_env ref_g event cold ref_loaded (reach_cold _ _) Hv).
Defined.

(** The entry [ecodes.BTN_LEFT: MouseButton.LEFT]. *)
Lemma display_round_trip_witness :
  loaded ref_env ref_g ∧ display_codes_distinct ref_env ∧
  ("BTN_LEFT", (MouseButton, "LEFT")) ∈ _EVDEV_TO_HID_without_keyboard_power_pause ∧
  ∃ k v, int_attr (ref_env ecodes) "BTN_LEFT" = Some k ∧
         int_attr (ref_env MouseButton) "LEFT" = Some v ∧
         _EVDEV_TO_HID ref_g !! k = Some v.
Proof.
  assert (("BTN_LEFT", (MouseButton, "LEFT"))
            ∈ _EVDEV_TO_HID_without_keyboard_power_pause) as Hin
    by (apply (bool_decide_unpack _); vm_compute; exact I).
  split; [exact ref_loaded|]. split; [exact ref_display_codes_distinct|].
  split; [exact Hin|].
  exact (display_round_trip ref_env ref_g "BTN_LEFT" MouseButton "LEFT"
           ref_loaded ref_display_codes_distinct Hin).
Defined.
